(** * Telegram copy-trading bot: signal parser and order sizer

    A shallow embedding of [SignalParser.parse_signal] and
    [BybitTrader.place_order] (with [set_leverage] and
    [get_account_balance]) of [trading_bot.py], and the properties the
    specification states about them.

    Conventions of the embedding.
    - A Python [str] is a [string]; scanning works on its list of
      characters.  The embedding is exact on ASCII text: [upper], [strip]
      and the character classes of the regular expressions are defined on
      the ASCII range as CPython defines them there, and the characters
      128..255 are inert (neither letter, digit nor space).
    - A Python [float] is an IEEE 754 binary64 number, [spec_float] with a
      53 bit mantissa and exponent bound 1024; products and quotients are
      rounded to nearest even as the hardware does.
    - A Python [int] is a [Z]; [int] of a string follows CPython's limit
      of 4300 digits on decimal conversions.
    - A call that may raise has an [outcome]: [Return v] or [Raise e].
    - The exchange session (pybit's [HTTP]) is a function from the calls
      received so far and the next call to its response, which may be an
      exception; every call made on it is appended to a trace. *)

From Stdlib Require Import ZArith Ascii String List Bool Lia.
From Stdlib Require Import Floats.SpecFloat.
From stdpp Require Import base option list strings pretty gmap.

Local Open Scope Z_scope.

(* ===================================================================== *)
(** * Outcomes of Python calls *)
(* ===================================================================== *)

(** The exceptions the two entry points can meet.  [Exception msg] is the
    plain [raise Exception(msg)] of the source; the others are raised by
    the interpreter or by the exchange client. *)
Inductive exn :=
| Exception (msg : string)
| KeyError (key : string)
| IndexError
| TypeError
| ValueError
| ZeroDivisionError
| OverflowError
| ClientError (msg : string).

Inductive outcome (A : Type) :=
| Return (v : A)
| Raise (e : exn).
Arguments Return {A} v.
Arguments Raise {A} e.

Definition obind {A B} (m : outcome A) (k : A -> outcome B) : outcome B :=
  match m with
  | Return v => k v
  | Raise e => Raise e
  end.

(** [try: m except Exception as e: h e] *)
Definition try_except {A} (m : outcome A) (h : exn -> outcome A) : outcome A :=
  match m with
  | Return v => Return v
  | Raise e => h e
  end.

Notation "'let*' x ':=' m 'in' k" := (obind m (fun x => k))
  (at level 10, x name, m at level 100, k at level 200).
Notation "'run*' m 'in' k" := (obind m (fun _ => k))
  (at level 10, m at level 100, k at level 200).

(* ===================================================================== *)
(** * Characters and strings *)
(* ===================================================================== *)

Definition chars (s : string) : list ascii := list_ascii_of_string s.
Definition text_of (l : list ascii) : string := string_of_list_ascii l.

Definition code (c : ascii) : N := N_of_ascii c.

Definition in_range (lo hi : N) (c : ascii) : bool :=
  ((lo <=? code c) && (code c <=? hi))%N.

(** [str.isspace] and the class [\s] on the ASCII range: TAB, LF, VT, FF,
    CR, the separators 0x1C..0x1F and the space. *)
Definition is_space (c : ascii) : bool :=
  in_range 9 13 c || in_range 28 31 c || (code c =? 32)%N.

(** [\d] on the ASCII range. *)
Definition is_digit (c : ascii) : bool := in_range 48 57 c.

Definition is_upper (c : ascii) : bool := in_range 65 90 c.
Definition is_lower (c : ascii) : bool := in_range 97 122 c.

Definition upper_char (c : ascii) : ascii :=
  if is_lower c then ascii_of_N (code c - 32) else c.

(** [text.upper()], on ASCII characters. *)
Definition upper (s : list ascii) : list ascii := map upper_char s.

Fixpoint lstrip_by (p : ascii -> bool) (s : list ascii) : list ascii :=
  match s with
  | c :: s' => if p c then lstrip_by p s' else s
  | [] => []
  end.

Definition strip_by (p : ascii -> bool) (s : list ascii) : list ascii :=
  rev (lstrip_by p (rev (lstrip_by p s))).

(** [text.strip()] *)
Definition strip (s : list ascii) : list ascii := strip_by is_space s.


Fixpoint starts_with (p s : list ascii) : bool :=
  match p, s with
  | [], _ => true
  | a :: p', b :: s' => if Ascii.eqb a b then starts_with p' s' else false
  | _ :: _, [] => false
  end.

(** [sub in s] for two strings. *)
Fixpoint has_substring (sub s : list ascii) : bool :=
  if starts_with sub s then true
  else match s with
       | [] => false
       | _ :: s' => has_substring sub s'
       end.

(** Length of the longest prefix of [s] whose characters satisfy [p]. *)
Fixpoint run (p : ascii -> bool) (s : list ascii) : nat :=
  match s with
  | c :: s' => if p c then S (run p s') else O
  | [] => O
  end.

(* ===================================================================== *)
(** * The regular expressions of the parser *)
(* ===================================================================== *)

(** The patterns of [parse_signal] are concatenations of literals, one
    alternation of literals, greedy repetitions of a character class, one
    optional literal, and one capturing group.  [re.search] is modelled for
    exactly this fragment, with Python's backtracking order: alternatives
    left to right, repetitions longest first, start positions left to
    right. *)
Module Regex.

Inductive cclass :=
| Space        (* \s *)
| Digit        (* \d *)
| DigitDot     (* [\d.] *)
| UpperDigit.  (* [A-Z0-9] *)

Definition in_class (c : cclass) (a : ascii) : bool :=
  match c with
  | Space => is_space a
  | Digit => is_digit a
  | DigitDot => is_digit a || Ascii.eqb a "."
  | UpperDigit => is_upper a || is_digit a
  end.

Inductive node :=
| Lit (s : string)                 (* the characters of s *)
| Alt (a b : string)               (* a|b *)
| Rep (min : nat) (c : cclass)     (* c* is [Rep 0 c], c+ is [Rep 1 c] *)
| Opt (s : string)                 (* s? *)
| Group (n : node).                (* ( n ), the capturing group 1 *)

Definition regex := list node.

Definition is_group (n : node) : bool :=
  match n with Group _ => true | _ => false end.

(** [countdown n min] is [n; n-1; ...; min], or nothing when [n < min]. *)
Fixpoint countdown (n min : nat) : list nat :=
  if (n <? min)%nat then []
  else n :: match n with
            | O => []
            | S n' => countdown n' min
            end.

(** The lengths of the prefixes of [s] that the node can match, in the
    order the backtracking matcher tries them. *)
Fixpoint candidates (n : node) (s : list ascii) : list nat :=
  match n with
  | Lit l => if starts_with (chars l) s then [length (chars l)] else []
  | Alt a b =>
      (if starts_with (chars a) s then [length (chars a)] else []) ++
      (if starts_with (chars b) s then [length (chars b)] else [])
  | Rep min c => countdown (run (in_class c) s) min
  | Opt l => (if starts_with (chars l) s then [length (chars l)] else []) ++ [O]
  | Group n' => candidates n' s
  end.

Fixpoint first_success {A} (f : nat -> option A) (ks : list nat) : option A :=
  match ks with
  | [] => None
  | k :: ks' => match f k with
                | Some x => Some x
                | None => first_success f ks'
                end
  end.

(** Match [r] at the start of [s]; the result is the text of group 1
    ([None] inside when the pattern has no group). *)
Fixpoint match_here (r : regex) (s : list ascii) : option (option (list ascii)) :=
  match r with
  | [] => Some None
  | n :: r' =>
      first_success
        (fun k => match match_here r' (drop k s) with
                  | Some g => Some (if is_group n then Some (take k s) else g)
                  | None => None
                  end)
        (candidates n s)
  end.

(** [re.search(r, s)]: the match at the leftmost position that has one. *)
Fixpoint search (r : regex) (s : list ascii) : option (option (list ascii)) :=
  match match_here r s with
  | Some g => Some g
  | None => match s with
            | [] => None
            | _ :: s' => search r s'
            end
  end.

(** [m.group(1)] of [m = re.search(r, s)], when there is a match. *)
Definition search_group1 (r : regex) (s : list ascii) : option (list ascii) :=
  match search r s with
  | Some (Some g) => Some g
  | _ => None
  end.

(** The language of a pattern, independently of the matcher. *)
Fixpoint lang_node (n : node) (w : list ascii) : Prop :=
  match n with
  | Lit l => w = chars l
  | Alt a b => w = chars a \/ w = chars b
  | Rep min c => (min <= length w)%nat /\ forallb (in_class c) w = true
  | Opt l => w = chars l \/ w = []
  | Group n' => lang_node n' w
  end.

Fixpoint lang (r : regex) (w : list ascii) : Prop :=
  match r with
  | [] => w = []
  | n :: r' => exists w1 w2, w = w1 ++ w2 /\ lang_node n w1 /\ lang r' w2
  end.

(** [lang_cap r w g]: [w] is in the language of [r], with group 1
    spanning [g] ([None] when [r] has no group). *)
Fixpoint lang_cap (r : regex) (w : list ascii) (g : option (list ascii)) : Prop :=
  match r with
  | [] => w = [] /\ g = None
  | n :: r' =>
      exists w1 w2 g',
        w = w1 ++ w2 /\ lang_node n w1 /\ lang_cap r' w2 g' /\
        g = if is_group n then Some w1 else g'
  end.


(** [w], with group [g], is an occurrence of [r] in [s] after [pre], and
    no occurrence starts further left. *)
Definition first_occurrence (r : regex) (s pre w : list ascii)
    (g : option (list ascii)) : Prop :=
  (exists post, s = pre ++ w ++ post) /\
  lang_cap r w g /\
  forall pre' w' post',
    s = pre' ++ w' ++ post' -> lang r w' -> (length pre <= length pre')%nat.

End Regex.
Import Regex.

Local Open Scope string_scope.
Local Open Scope list_scope.

(** r'(LONG|SHORT)' *)
Definition direction_re : regex := [Group (Alt "LONG" "SHORT")].
(** r'([A-Z0-9]+)/USDT' *)
Definition symbol_re : regex := [Group (Rep 1 UpperDigit); Lit "/USDT"].
(** r'LIMIT ORDER\s+([\d.]+)' *)
Definition limit_re : regex := [Lit "LIMIT ORDER"; Rep 1 Space; Group (Rep 1 DigitDot)].
(** r'LEVERAGE:\s*(\d+)X?' *)
Definition leverage_re : regex := [Lit "LEVERAGE:"; Rep 0 Space; Group (Rep 1 Digit); Opt "X"].
(** r'TP:\s*([\d.]+)' *)
Definition tp_re : regex := [Lit "TP:"; Rep 0 Space; Group (Rep 1 DigitDot)].
(** r'SL:\s*([\d.]+)' *)
Definition sl_re : regex := [Lit "SL:"; Rep 0 Space; Group (Rep 1 DigitDot)].
(** r'USE\s+(\d+)%\s+OF\s+CAPITAL' *)
Definition risk_re : regex :=
  [Lit "USE"; Rep 1 Space; Group (Rep 1 Digit); Lit "%"; Rep 1 Space;
   Lit "OF"; Rep 1 Space; Lit "CAPITAL"].

(* ===================================================================== *)
(** * Python floats and integers *)
(* ===================================================================== *)

Module PyNum.

Definition float := spec_float.

Definition prec : Z := 53.
Definition emax : Z := 1024.

Definition fzero : float := S754_zero false.

(** [a * b] on two floats. *)
Definition fmul (a b : float) : float := SFmul prec emax a b.

(** [a == 0] for a float [a]. *)
Definition is_zero (a : float) : bool := SFeqb a fzero.

(** [a > 0] for a float [a]. *)
Definition gt_zero (a : float) : bool := SFltb fzero a.

(** [a / b] on two floats: a zero divisor raises. *)
Definition fdiv (a b : float) : outcome float :=
  if is_zero b then Raise ZeroDivisionError else Return (SFdiv prec emax a b).

(** The float nearest to [(-1)^neg * n * 10^e10], ties to even: what
    [strtod] returns for a decimal numeral with digits [n] and decimal
    exponent [e10]. *)
Definition decimal_to_float (neg : bool) (n : Z) (e10 : Z) : float :=
  match n with
  | Zpos m =>
      if (0 <=? e10)%Z
      then binary_round prec emax neg (m * Z.to_pos (10 ^ e10)) 0
      else SFdiv prec emax (S754_finite neg m 0)
                           (S754_finite false (Z.to_pos (10 ^ (- e10))) 0)
  | _ => S754_zero neg
  end.

(** Conversion of a Python [int] operand to float. *)
Definition float_of_int (z : Z) : outcome float :=
  match binary_normalize prec emax z 0 false with
  | S754_infinity _ => Raise OverflowError
  | f => Return f
  end.

(** The integer nearest to [a / b], ties to even ([0 <= a], [0 < b]). *)
Definition round_half_even_div (a b : Z) : Z :=
  let q := (a / b)%Z in
  match (2 * (a mod b) ?= b)%Z with
  | Lt => q
  | Gt => (q + 1)%Z
  | Eq => if Z.even q then q else (q + 1)%Z
  end.

(** [round(x, ndigits)] for [0 <= ndigits]: the exact value of [x] is
    rounded to [ndigits] decimals, ties to even, and the decimal is
    converted back to the nearest float; infinities and NaN are kept. *)
Definition py_round (x : float) (ndigits : nat) : float :=
  match x with
  | S754_finite s m e =>
      let p := (10 ^ Z.of_nat ndigits)%Z in
      let n := if (0 <=? e)%Z then (Zpos m * 2 ^ e * p)%Z
               else round_half_even_div (Zpos m * p) (2 ^ (- e)) in
      decimal_to_float s n (- Z.of_nat ndigits)
  | _ => x
  end.

(** ** Numerals *)

(** The white space [float] and [int] skip around an ASCII numeral: TAB,
    LF, VT, FF, CR and the space (C's [isspace]). *)
Definition is_c_space (c : ascii) : bool :=
  in_range 9 13 c || (code c =? 32)%N.

Definition digit_value (c : ascii) : Z := Z.of_N (code c) - 48.

(** Value of a string of decimal digits. *)
Definition digits_value (ds : list ascii) : Z :=
  fold_left (fun acc c => 10 * acc + digit_value c)%Z ds 0%Z.

Definition lower_char (c : ascii) : ascii :=
  if is_upper c then ascii_of_N (code c + 32) else c.

Definition ci_equal (s : list ascii) (t : string) : bool :=
  if decide (map lower_char s = chars t) then true else false.

(** An optional sign: [(negative, rest)]. *)
Definition take_sign (s : list ascii) : bool * list ascii :=
  match s with
  | c :: s' =>
      if Ascii.eqb c "-" then (true, s')
      else if Ascii.eqb c "+" then (false, s')
      else (false, s)
  | [] => (false, s)
  end.

(** Underscores in a numeric string: allowed only between two digits;
    they are removed.  [prev] is the character before [s]. *)
Fixpoint remove_underscores (prev : ascii) (s : list ascii) : option (list ascii) :=
  match s with
  | [] => if Ascii.eqb prev "_" then None else Some []
  | c :: s' =>
      if Ascii.eqb c "_"
      then if is_digit prev then remove_underscores c s' else None
      else if Ascii.eqb prev "_" && negb (is_digit c) then None
           else option_map (cons c) (remove_underscores c s')
  end.

(** The decimal grammar of [strtod] on a whole string: digits, an optional
    point and digits, at least one digit in all, an optional exponent. *)
Definition parse_decimal (neg : bool) (s : list ascii) : option float :=
  let ip := take (run is_digit s) s in
  let s1 := drop (run is_digit s) s in
  let '(fp, s2) :=
    match s1 with
    | c :: t => if Ascii.eqb c "." then (take (run is_digit t) t, drop (run is_digit t) t)
                else ([], s1)
    | [] => ([], s1)
    end in
  let ds := ip ++ fp in
  match ds with
  | [] => None
  | _ :: _ =>
      let scale := (- Z.of_nat (length fp))%Z in
      match s2 with
      | [] => Some (decimal_to_float neg (digits_value ds) scale)
      | c :: t =>
          if Ascii.eqb c "e" || Ascii.eqb c "E" then
            let '(eneg, t1) := take_sign t in
            match t1 with
            | [] => None
            | _ :: _ =>
                if forallb is_digit t1
                then let ev := digits_value t1 in
                     Some (decimal_to_float neg (digits_value ds)
                             ((if eneg then - ev else ev) + scale))
                else None
            end
          else None
      end
  end.

(** [float(s)] for a string [s]. *)
Definition float_of_string (s : string) : outcome float :=
  let cs := chars s in
  match (if has_substring ["_"%char] cs then remove_underscores "000" cs else Some cs) with
  | None => Raise ValueError
  | Some cs1 =>
      let '(neg, body) := take_sign (strip_by is_c_space cs1) in
      if ci_equal body "inf" || ci_equal body "infinity" then Return (S754_infinity neg)
      else if ci_equal body "nan" then Return S754_nan
      else match parse_decimal neg body with
           | Some f => Return f
           | None => Raise ValueError
           end
  end.

(** [sys.int_info.default_max_str_digits]: CPython refuses to convert a
    decimal string with more digits to an [int]. *)
Definition int_max_str_digits : nat := 4300.

(** [int(s)] for a string [s], base 10. *)
Definition int_of_string (s : string) : outcome Z :=
  let '(neg, body) := take_sign (strip_by is_c_space (chars s)) in
  match body with
  | [] => Raise ValueError
  | c :: _ =>
      if negb (is_digit c) then Raise ValueError else
      match remove_underscores "000" body with
      | None => Raise ValueError
      | Some ds =>
          if negb (forallb is_digit ds) then Raise ValueError
          else if (int_max_str_digits <? length ds)%nat then Raise ValueError
          else Return (if neg then (- digits_value ds)%Z else digits_value ds)
      end
  end.

(** A float literal of the source, written as its text. *)
Definition float_lit (s : string) : float :=
  match float_of_string s with
  | Return f => f
  | Raise _ => S754_nan
  end.

End PyNum.
Import PyNum.

(* ===================================================================== *)
(** * Trading signals and the signal parser *)
(* ===================================================================== *)

(** The dataclass [TradingSignal].  The defaults [0] of [take_profit] and
    [stop_loss] are the float zero: the program only compares them with
    [0], where the integer and the float zero agree. *)
Record TradingSignal := mkSignal {
  direction : string;            (* LONG or SHORT *)
  symbol : string;
  order_type : string;           (* MARKET or LIMIT *)
  entry_price : option float;
  take_profit : float;
  stop_loss : float;
  leverage : Z;
  risk_percentage : float
}.

Definition default_leverage : Z := 10.
Definition default_risk : float := float_lit "5.0".

(** [TradingSignal(direction=d, symbol=s, order_type=t)] *)
Definition new_signal (d s t : string) : TradingSignal :=
  {| direction := d; symbol := s; order_type := t; entry_price := None;
     take_profit := fzero; stop_loss := fzero;
     leverage := default_leverage; risk_percentage := default_risk |}.

Definition set_direction (sg : TradingSignal) (v : string) : TradingSignal :=
  {| direction := v; symbol := symbol sg; order_type := order_type sg;
     entry_price := entry_price sg; take_profit := take_profit sg;
     stop_loss := stop_loss sg; leverage := leverage sg;
     risk_percentage := risk_percentage sg |}.

Definition set_symbol (sg : TradingSignal) (v : string) : TradingSignal :=
  {| direction := direction sg; symbol := v; order_type := order_type sg;
     entry_price := entry_price sg; take_profit := take_profit sg;
     stop_loss := stop_loss sg; leverage := leverage sg;
     risk_percentage := risk_percentage sg |}.

Definition set_order_type (sg : TradingSignal) (v : string) : TradingSignal :=
  {| direction := direction sg; symbol := symbol sg; order_type := v;
     entry_price := entry_price sg; take_profit := take_profit sg;
     stop_loss := stop_loss sg; leverage := leverage sg;
     risk_percentage := risk_percentage sg |}.

Definition set_entry_price (sg : TradingSignal) (v : option float) : TradingSignal :=
  {| direction := direction sg; symbol := symbol sg; order_type := order_type sg;
     entry_price := v; take_profit := take_profit sg;
     stop_loss := stop_loss sg; leverage := leverage sg;
     risk_percentage := risk_percentage sg |}.

Definition set_take_profit (sg : TradingSignal) (v : float) : TradingSignal :=
  {| direction := direction sg; symbol := symbol sg; order_type := order_type sg;
     entry_price := entry_price sg; take_profit := v;
     stop_loss := stop_loss sg; leverage := leverage sg;
     risk_percentage := risk_percentage sg |}.

Definition set_stop_loss (sg : TradingSignal) (v : float) : TradingSignal :=
  {| direction := direction sg; symbol := symbol sg; order_type := order_type sg;
     entry_price := entry_price sg; take_profit := take_profit sg;
     stop_loss := v; leverage := leverage sg;
     risk_percentage := risk_percentage sg |}.

Definition set_leverage_field (sg : TradingSignal) (v : Z) : TradingSignal :=
  {| direction := direction sg; symbol := symbol sg; order_type := order_type sg;
     entry_price := entry_price sg; take_profit := take_profit sg;
     stop_loss := stop_loss sg; leverage := v;
     risk_percentage := risk_percentage sg |}.

Definition set_risk_percentage (sg : TradingSignal) (v : float) : TradingSignal :=
  {| direction := direction sg; symbol := symbol sg; order_type := order_type sg;
     entry_price := entry_price sg; take_profit := take_profit sg;
     stop_loss := stop_loss sg; leverage := leverage sg;
     risk_percentage := v |}.

(** [text.upper().strip()], as a list of characters. *)
Definition clean (text : string) : list ascii := strip (upper (chars text)).

(** [m = re.search(r, text)]; [if m: signal.f = conv(m.group(1))]. *)
Definition parse_field {A} (r : regex) (text : list ascii)
    (conv : string -> outcome A) (set : TradingSignal -> A -> TradingSignal)
    (signal : TradingSignal) : outcome TradingSignal :=
  match search_group1 r text with
  | Some g => let* v := conv (text_of g) in Return (set signal v)
  | None => Return signal
  end.

(** The order type and entry price step of [parse_signal]. *)
Definition parse_order_type (text : list ascii) (signal : TradingSignal)
    : outcome TradingSignal :=
  if has_substring (chars "LIMIT ORDER") text then
    let signal := set_order_type signal "LIMIT" in
    parse_field limit_re text float_of_string
      (fun sg v => set_entry_price sg (Some v)) signal
  else Return (set_order_type signal "MARKET").

(** The body of the [try] of [parse_signal].  The list [lines] the source
    builds is never read and is left out. *)
Definition parse_signal_body (text : string) : outcome (option TradingSignal) :=
  let text := clean text in
  let signal := new_signal "" "" "MARKET" in
  match search_group1 direction_re text with
  | None => Return None
  | Some d =>
      let signal := set_direction signal (text_of d) in
      match search_group1 symbol_re text with
      | None => Return None
      | Some b =>
          let signal := set_symbol signal (text_of b +:+ "USDT") in
          let* signal := parse_order_type text signal in
          let* signal := parse_field leverage_re text int_of_string set_leverage_field signal in
          let* signal := parse_field tp_re text float_of_string set_take_profit signal in
          let* signal := parse_field sl_re text float_of_string set_stop_loss signal in
          let* signal := parse_field risk_re text float_of_string set_risk_percentage signal in
          Return (Some signal)
      end
  end.

(** [SignalParser.parse_signal]: any exception of the body is logged and
    turned into [None]. *)
Definition parse_signal (text : string) : outcome (option TradingSignal) :=
  try_except (parse_signal_body text) (fun _ => Return None).

(* ===================================================================== *)
(** * Responses of the exchange *)
(* ===================================================================== *)

(** The exchange client returns decoded JSON.  The operations below are
    the Python operations [place_order] applies to such values, with the
    exceptions they raise on the wrong kind of value. *)
Module Json.

#[local] Unset Elimination Schemes.
Inductive json :=
| JNull
| JBool (b : bool)
| JInt (z : Z)
| JFloat (f : float)
| JStr (s : string)
| JList (l : list json)
| JDict (d : list (string * json)).
#[local] Set Elimination Schemes.

Fixpoint dict_get (k : string) (d : list (string * json)) : option json :=
  match d with
  | [] => None
  | (k', v) :: d' => if String.eqb k k' then Some v else dict_get k d'
  end.

(** [bool(v)] *)
Definition truthy (v : json) : bool :=
  match v with
  | JNull => false
  | JBool b => b
  | JInt z => negb (z =? 0)%Z
  | JFloat f => negb (is_zero f)
  | JStr s => negb (String.eqb s "")
  | JList l => match l with [] => false | _ => true end
  | JDict d => match d with [] => false | _ => true end
  end.

(** [v == s] for a string [s] *)
Definition eq_str (v : json) (s : string) : bool :=
  match v with
  | JStr s' => String.eqb s' s
  | _ => false
  end.

(** [v == 0] *)
Definition eq_zero (v : json) : bool :=
  match v with
  | JInt z => (z =? 0)%Z
  | JFloat f => is_zero f
  | JBool b => negb b
  | _ => false
  end.

(** [k in v] for a string [k] *)
Definition py_in (k : string) (v : json) : outcome bool :=
  match v with
  | JDict d => Return (match dict_get k d with Some _ => true | None => false end)
  | JList l => Return (existsb (fun x => eq_str x k) l)
  | JStr s => Return (has_substring (chars k) (chars s))
  | _ => Raise TypeError
  end.

(** [v[k]] for a string [k] *)
Definition getitem (v : json) (k : string) : outcome json :=
  match v with
  | JDict d => match dict_get k d with
               | Some x => Return x
               | None => Raise (KeyError k)
               end
  | _ => Raise TypeError
  end.

(** [v[0]] *)
Definition getitem0 (v : json) : outcome json :=
  match v with
  | JList l => match l with
               | x :: _ => Return x
               | [] => Raise IndexError
               end
  | JStr s => match s with
              | String c _ => Return (JStr (String c ""))
              | EmptyString => Raise IndexError
              end
  | JDict _ => Raise (KeyError "0")
  | _ => Raise TypeError
  end.

(** The items [for x in v] visits. *)
Definition iterate (v : json) : outcome (list json) :=
  match v with
  | JList l => Return l
  | JDict d => Return (map (fun kv => JStr (fst kv)) d)
  | JStr s => Return (map (fun c => JStr (String c "")) (chars s))
  | _ => Raise TypeError
  end.

(** [float(v)] *)
Definition to_float (v : json) : outcome float :=
  match v with
  | JStr s => float_of_string s
  | JInt z => float_of_int z
  | JFloat f => Return f
  | JBool b => Return (float_lit (if b then "1.0" else "0.0"))
  | _ => Raise TypeError
  end.

End Json.
Import Json.

(* ===================================================================== *)
(** * The order sizer and dispatcher *)
(* ===================================================================== *)

(** A string built by the program: a literal or a copy of one, or
    [str(f)] of a float [f], kept as the float it prints. *)
Inductive pystr :=
| Str (s : string)
| StrOfFloat (f : float).

(** The calls [BybitTrader] makes on its session.  The constant keyword
    arguments ([category="linear"], [accountType="UNIFIED"]) are left out;
    [SetLeverage] stands for [buyLeverage = sellLeverage = str(leverage)]. *)
Inductive call :=
| SetLeverage (sym : string) (lev : Z)
| GetWalletBalance
| GetTickers (sym : string)
| PlaceOrder (params : gmap string pystr).

(** The exchange: what a call returns (or raises), given the calls made
    before it. *)
Definition venue := list call -> call -> outcome json.

(** The dictionary [place_order] returns. *)
Inductive OrderResult :=
| Completed (success : bool) (result : json) (order_params : gmap string pystr)
    (* {'success': ..., 'result': ..., 'order_params': ...} *)
| Failed (error : exn).
    (* {'success': False, 'error': str(e)} *)

(** What a method of [BybitTrader] can change: the signal object it was
    given, and the calls received by the exchange. *)
Record state := mkState {
  st_signal : TradingSignal;
  st_calls : list call
}.

Definition M (A : Type) : Type := state -> outcome A * state.

Definition ret {A} (v : A) : M A := fun st => (Return v, st).
Definition raise {A} (e : exn) : M A := fun st => (Raise e, st).
Definition lift {A} (o : outcome A) : M A := fun st => (o, st).

Definition bind {A B} (m : M A) (k : A -> M B) : M B :=
  fun st => match m st with
            | (Return v, st') => k v st'
            | (Raise e, st') => (Raise e, st')
            end.

(** [try: m except Exception as e: h e], the state changes of [m] kept. *)
Definition try_catch {A} (m : M A) (h : exn -> M A) : M A :=
  fun st => match m st with
            | (Return v, st') => (Return v, st')
            | (Raise e, st') => h e st'
            end.

Definition get_signal : M TradingSignal := fun st => (Return (st_signal st), st).

Definition update_signal (f : TradingSignal -> TradingSignal) : M unit :=
  fun st => (Return tt, mkState (f (st_signal st)) (st_calls st)).

Notation "'let!' x ':=' m 'in' k" := (bind m (fun x => k))
  (at level 10, x name, m at level 100, k at level 200).
Notation "'do!' m 'in' k" := (bind m (fun _ => k))
  (at level 10, m at level 100, k at level 200).

(** The quantity of an order, lines 205 and 216-219, once the balance and
    the entry price are floats. *)
Definition risk_amount (usdt_balance user_risk : float) : outcome float :=
  let* r := fdiv user_risk (float_lit "100") in
  Return (fmul usdt_balance r).

Definition order_qty (risk_amt : float) (user_leverage : Z) (entry : option float)
    : outcome float :=
  let* lev := float_of_int user_leverage in
  let product := fmul risk_amt lev in
  let* price := match entry with
                | Some p => Return p
                | None => Raise TypeError
                end in
  let* qty := fdiv product price in
  Return (py_round qty 6).

(** The loop over the coin list: the wallet balance of the first entry
    whose currency is USDT, or the initial value. *)
Fixpoint find_usdt (coins : list json) (usdt_balance : float) : outcome float :=
  match coins with
  | [] => Return usdt_balance
  | coin :: rest =>
      let* c := getitem coin "coin" in
      if eq_str c "USDT"
      then let* w := getitem coin "walletBalance" in to_float w
      else find_usdt rest usdt_balance
  end.

(** The coins the loop of line 196 visits:
    [balance['result']['list'][0]['coin']]. *)
Definition coin_list_of (balance : json) : outcome (list json) :=
  let* r := getitem balance "result" in
  let* l := getitem r "list" in
  let* l0 := getitem0 l in
  let* coins := getitem l0 "coin" in
  iterate coins.

(** Lines 195-199 on a balance snapshot. *)
Definition usdt_balance_of (balance : json) : outcome float :=
  let* items := coin_list_of balance in
  find_usdt items fzero.

(** Line 212: [float(ticker['result']['list'][0]['lastPrice'])]. *)
Definition last_price_of (ticker : json) : outcome float :=
  let* r := getitem ticker "result" in
  let* l := getitem r "list" in
  let* l0 := getitem0 l in
  let* p := getitem l0 "lastPrice" in
  to_float p.

(** Lines 225-242. *)
Definition build_order_params (signal : TradingSignal) (qty : float)
    : gmap string pystr :=
  let side := if String.eqb (direction signal) "LONG" then "Buy" else "Sell" in
  let order_params : gmap string pystr :=
    <["category" := Str "linear"]>
    (<["symbol" := Str (symbol signal)]>
    (<["side" := Str side]>
    (<["orderType" := Str (if String.eqb (order_type signal) "MARKET"
                            then "Market" else "Limit")]>
    (<["qty" := StrOfFloat qty]>
    (<["timeInForce" := Str "GTC"]> ∅))))) in
  let order_params :=
    if String.eqb (order_type signal) "LIMIT"
    then <["price" := match entry_price signal with
                      | Some p => StrOfFloat p
                      | None => Str "None"
                      end]> order_params
    else order_params in
  let order_params :=
    if gt_zero (take_profit signal)
    then <["takeProfit" := StrOfFloat (take_profit signal)]> order_params
    else order_params in
  if gt_zero (stop_loss signal)
  then <["stopLoss" := StrOfFloat (stop_loss signal)]> order_params
  else order_params.

(** Lines 191-202 on the balance snapshot: the USDT balance, or the
    exception raised. *)
Definition check_balance (balance : json) : outcome float :=
  let* found := (if negb (truthy balance) then Return false
                 else py_in "result" balance) in
  if negb found then Raise (Exception "Could not fetch account balance")
  else
    let* usdt_balance := usdt_balance_of balance in
    if is_zero usdt_balance then Raise (Exception "No USDT balance found")
    else Return usdt_balance.

Section Trader.

Variable session : venue.

(** A call on [self.session]. *)
Definition call_session (c : call) : M json :=
  fun st => (session (st_calls st) c,
             mkState (st_signal st) (st_calls st ++ [c])).

(** [BybitTrader.get_account_balance] *)
Definition get_account_balance : M json :=
  try_catch (call_session GetWalletBalance) (fun _ => ret (JDict [])).

(** [BybitTrader.set_leverage].  The arguments [str(leverage)] of the
    call are taken to print, as they do for a leverage of at most 4300
    digits ([str_of_int] below); beyond, the interpreter raises before the
    exchange is called. *)
Definition set_leverage (sym : string) (lev : Z) : M bool :=
  try_catch
    (let! result := call_session (SetLeverage sym lev) in
     let! rc := lift (getitem result "retCode") in
     ret (eq_zero rc))
    (fun _ => ret false).

(** Lines 208-213: the price of a MARKET order. *)
Definition resolve_price : M unit :=
  let! signal := get_signal in
  if String.eqb (order_type signal) "MARKET" then
    let! ticker := call_session (GetTickers (symbol signal)) in
    let! rc := lift (getitem ticker "retCode") in
    if negb (eq_zero rc) then raise (Exception "Could not fetch ticker data")
    else
      let! current_price := lift (last_price_of ticker) in
      update_signal (fun sg => set_entry_price sg (Some current_price))
  else ret tt.

(** The body of the [try] of [place_order]. *)
Definition place_order_body (user_leverage : Z) (user_risk : float) : M OrderResult :=
  let! signal := get_signal in
  do! set_leverage (symbol signal) user_leverage in
  let! balance := get_account_balance in
  let! usdt_balance := lift (check_balance balance) in
  let! risk_amt := lift (risk_amount usdt_balance user_risk) in
  do! resolve_price in
  let! signal := get_signal in
  let! qty := lift (order_qty risk_amt user_leverage (entry_price signal)) in
  let order_params := build_order_params signal qty in
  let! result := call_session (PlaceOrder order_params) in
  let! rc := lift (getitem result "retCode") in
  ret (Completed (eq_zero rc) result order_params).

(** [BybitTrader.place_order]: any exception of the body is logged and
    reported in the result. *)
Definition place_order (user_leverage : Z) (user_risk : float) : M OrderResult :=
  try_catch (place_order_body user_leverage user_risk) (fun e => ret (Failed e)).

End Trader.

(** A call of [trader.place_order(signal, user_leverage, user_risk)] on a
    session that has received no call yet: the outcome, the signal object
    and the calls received by the exchange afterwards. *)
Definition run_place_order (session : venue) (signal : TradingSignal)
    (user_leverage : Z) (user_risk : float) : outcome OrderResult * state :=
  place_order session user_leverage user_risk (mkState signal []).

Definition is_place_order (c : call) : bool :=
  match c with PlaceOrder _ => true | _ => false end.

(** No order reached the exchange. *)
Definition no_order_submitted (calls : list call) : Prop :=
  forallb (fun c => negb (is_place_order c)) calls = true.

(** The balance snapshot [get_account_balance] hands to [place_order]:
    the response of the exchange, or the empty dictionary when the client
    raised. *)
Definition balance_snapshot (session : venue) (signal : TradingSignal)
    (user_leverage : Z) : json :=
  match session [SetLeverage (symbol signal) user_leverage] GetWalletBalance with
  | Return b => b
  | Raise _ => JDict []
  end.

(** The ticker response a MARKET order is priced from. *)
Definition ticker_response (session : venue) (signal : TradingSignal)
    (user_leverage : Z) : outcome json :=
  session [SetLeverage (symbol signal) user_leverage; GetWalletBalance]
          (GetTickers (symbol signal)).

(** ** A sample exchange, for examples *)

Definition sample_wallet (bal : string) : json :=
  JDict [("retCode", JInt 0);
         ("result", JDict [("list", JList [JDict [("coin",
            JList [JDict [("coin", JStr "BTC"); ("walletBalance", JStr "0.5")];
                   JDict [("coin", JStr "USDT"); ("walletBalance", JStr bal)]])]])])].

Definition sample_ticker (price : string) : json :=
  JDict [("retCode", JInt 0);
         ("result", JDict [("list", JList [JDict [("lastPrice", JStr price)]])])].

(** An exchange that accepts everything, with the given wallet and last
    price. *)
Definition sample_session (wallet : json) (price : string) : venue :=
  fun _ c =>
    match c with
    | GetWalletBalance => Return wallet
    | GetTickers _ => Return (sample_ticker price)
    | SetLeverage _ _ => Return (JDict [("retCode", JInt 0)])
    | PlaceOrder _ => Return (JDict [("retCode", JInt 0);
                                     ("result", JDict [("orderId", JStr "1")])])
    end.

(** ** The runs of [place_order] *)

Section OrderRuns.

Variable session : venue.

(** What [resolve_price] does to a state, by cases. *)
Inductive price_resolved (st : state) : outcome unit * state -> Prop :=
| PriceKept :
    order_type (st_signal st) <> "MARKET" ->
    price_resolved st (Return tt, st)
| PriceFailed e :
    order_type (st_signal st) = "MARKET" ->
    price_resolved st
      (Raise e, mkState (st_signal st)
                        (st_calls st ++ [GetTickers (symbol (st_signal st))]))
| PriceSet ticker p :
    order_type (st_signal st) = "MARKET" ->
    session (st_calls st) (GetTickers (symbol (st_signal st))) = Return ticker ->
    last_price_of ticker = Return p ->
    price_resolved st
      (Return tt, mkState (set_entry_price (st_signal st) (Some p))
                          (st_calls st ++ [GetTickers (symbol (st_signal st))])).

Variable signal : TradingSignal.
Variable user_leverage : Z.
Variable user_risk : float.

(** The calls every run starts with. *)
Definition first_calls : list call :=
  [SetLeverage (symbol signal) user_leverage; GetWalletBalance].

(** The signal and the calls once the price is resolved. *)
Inductive priced : TradingSignal -> list call -> Prop :=
| PricedLimit :
    order_type signal <> "MARKET" ->
    priced signal first_calls
| PricedMarket ticker p :
    order_type signal = "MARKET" ->
    ticker_response session signal user_leverage = Return ticker ->
    last_price_of ticker = Return p ->
    priced (set_entry_price signal (Some p))
           (first_calls ++ [GetTickers (symbol signal)]).

(** What the exchange answers to the order, as [place_order] reports it. *)
Definition report (calls : list call) (params : gmap string pystr) : OrderResult :=
  match session calls (PlaceOrder params) with
  | Return result =>
      match getitem result "retCode" with
      | Return rc => Completed (eq_zero rc) result params
      | Raise e => Failed e
      end
  | Raise e => Failed e
  end.

(** The amount at risk, line 205. *)
Definition risk_of (bal : float) : float :=
  fmul bal (SFdiv prec emax user_risk (float_lit "100")).

(** The runs of [place_order], by the step they end at. *)
Inductive order_run : OrderResult -> state -> Prop :=
| AbortedAtBalance e :
    check_balance (balance_snapshot session signal user_leverage) = Raise e ->
    order_run (Failed e) (mkState signal first_calls)
| AbortedAtPrice bal e :
    check_balance (balance_snapshot session signal user_leverage) = Return bal ->
    order_type signal = "MARKET" ->
    order_run (Failed e)
              (mkState signal (first_calls ++ [GetTickers (symbol signal)]))
| AbortedAtSizing bal sg calls e :
    check_balance (balance_snapshot session signal user_leverage) = Return bal ->
    priced sg calls ->
    order_qty (risk_of bal) user_leverage (entry_price sg) = Raise e ->
    order_run (Failed e) (mkState sg calls)
| Submitted bal sg calls qty :
    check_balance (balance_snapshot session signal user_leverage) = Return bal ->
    priced sg calls ->
    order_qty (risk_of bal) user_leverage (entry_price sg) = Return qty ->
    order_run (report calls (build_order_params sg qty))
              (mkState sg (calls ++ [PlaceOrder (build_order_params sg qty)])).

End OrderRuns.

(** The balance conditions under which no order is attempted, with the
    message reported. *)
Inductive balance_problem (b : json) : string -> Prop :=
| SnapshotEmpty :
    truthy b = false ->
    balance_problem b "Could not fetch account balance"
| SnapshotWithoutResult :
    py_in "result" b = Return false ->
    balance_problem b "Could not fetch account balance"
| ZeroBalance f :
    py_in "result" b = Return true ->
    usdt_balance_of b = Return f ->
    is_zero f = true ->
    balance_problem b "No USDT balance found".

(** The coin entry has a currency code, and it is not USDT. *)
Definition other_currency (coin : json) : Prop :=
  exists c, getitem coin "coin" = Return c /\ eq_str c "USDT" = false.

(** ** Texts, as the specification describes them *)




(** [sym] is the base token of the leftmost TOKEN/USDT of the text,
    followed by USDT. *)
Definition first_symbol (s : list ascii) (sym : string) : Prop :=
  exists pre tok post,
    tok <> [] /\ forallb (in_class UpperDigit) tok = true /\
    s = pre ++ tok ++ chars "/USDT" ++ post /\
    sym = text_of tok +:+ "USDT" /\
    forall pre' tok' post',
      tok' <> [] -> forallb (in_class UpperDigit) tok' = true ->
      s = pre' ++ tok' ++ chars "/USDT" ++ post' ->
      (length pre <= length pre')%nat.





(** The value a field gets from its pattern: the converted capture, or
    the default when the pattern has no match. *)
Definition field_value {A} (r : regex) (conv : string -> outcome A) (dflt : A)
    (s : list ascii) : outcome A :=
  match search_group1 r s with
  | Some g => conv (text_of g)
  | None => Return dflt
  end.

(** The order type and entry price the text gives. *)
Definition entry_value (s : list ascii) : outcome (string * option float) :=
  if has_substring (chars "LIMIT ORDER") s then
    match search_group1 limit_re s with
    | Some g => let* p := float_of_string (text_of g) in Return ("LIMIT", Some p)
    | None => Return ("LIMIT", None)
    end
  else Return ("MARKET", None).

(** A decimal numeral without sign or exponent: digits, or digits with
    one point in or around them. *)
Definition decimal_token (g : list ascii) : Prop :=
  exists ip fp,
    forallb is_digit ip = true /\ forallb is_digit fp = true /\
    ip ++ fp <> [] /\
    (g = ip /\ fp = [] \/ g = ip ++ "."%char :: fp).

(** The value [float] gives a decimal token. *)
Definition decimal_value (g : list ascii) (f : float) : Prop :=
  exists ip fp,
    forallb is_digit ip = true /\ forallb is_digit fp = true /\
    (g = ip /\ fp = [] \/ g = ip ++ "."%char :: fp) /\
    f = decimal_to_float false (digits_value (ip ++ fp)) (- Z.of_nat (length fp)).

(** [0 <= f], possibly infinite: [f] is not NaN and not negative. *)
Definition is_nonneg (f : float) : bool := SFleb fzero f.




(** The fields of a signal other than [entry_price]. *)
Definition same_but_price (a b : TradingSignal) : Prop :=
  direction a = direction b /\ symbol a = symbol b /\
  order_type a = order_type b /\ take_profit a = take_profit b /\
  stop_loss a = stop_loss b /\ leverage a = leverage b /\
  risk_percentage a = risk_percentage b.


(* ===================================================================== *)
(** * The configuration manager and the chat handlers *)
(* ===================================================================== *)

(** [str(z)] for an [int]: the decimal numeral, refused beyond the digit
    limit of the interpreter. *)
Definition decimal_digits (z : Z) : nat := String.length (pretty (Z.abs z)).

Definition str_of_int (z : Z) : outcome string :=
  if (int_max_str_digits <? decimal_digits z)%nat then Raise ValueError
  else Return (pretty z).

(** [s.split(c)] for a separator of one character. *)
Fixpoint split_on (c : ascii) (s : list ascii) : list (list ascii) :=
  match s with
  | [] => [[]]
  | a :: s' =>
      if Ascii.eqb a c then [] :: split_on c s'
      else match split_on c s' with
           | h :: t => (a :: h) :: t
           | [] => [[a]]
           end
  end.

(** [data.split("_")[1]] *)
Definition split_second (data : string) : outcome string :=
  match split_on "_" (chars data) with
  | _ :: x :: _ => Return (text_of x)
  | _ => Raise IndexError
  end.

(** [data.startswith(p)] *)
Definition startswith (p data : string) : bool := starts_with (chars p) (chars data).

Module Config.

(** The dictionary [ConfigManager.config], with the keys of
    [default_config]; the settings of a user are a dictionary of their
    own. *)
Record config := mkConfig {
  cfg_users : gmap string (gmap string json);
  cfg_default_leverage : json;
  cfg_default_risk : json;
  cfg_max_leverage : json;
  cfg_max_risk : json
}.

Definition default_config : config :=
  {| cfg_users := ∅;
     cfg_default_leverage := JInt 10;
     cfg_default_risk := JFloat (float_lit "5.0");
     cfg_max_leverage := JInt 50;
     cfg_max_risk := JFloat (float_lit "10.0") |}.

Definition set_users (c : config) (u : gmap string (gmap string json)) : config :=
  {| cfg_users := u;
     cfg_default_leverage := cfg_default_leverage c;
     cfg_default_risk := cfg_default_risk c;
     cfg_max_leverage := cfg_max_leverage c;
     cfg_max_risk := cfg_max_risk c |}.

(** A [ConfigManager]: its dictionary, and what the configuration file
    holds since the last [save_config] (the dump of a dictionary), if it
    was written. *)
Record manager := mkManager {
  mgr_config : config;
  mgr_file : option config
}.

(** [bool(d)] for a dictionary. *)
Definition dict_truthy (d : gmap string json) : bool := negb (size d =? 0)%nat.

(** [ConfigManager.save_config] *)
Definition save_config (m : manager) : manager :=
  mkManager (mgr_config m) (Some (mgr_config m)).

(** [ConfigManager.add_user] *)
Definition add_user (user_id : Z) (api_key api_secret : string) (m : manager)
    : outcome manager :=
  let c := mgr_config m in
  let entry : gmap string json :=
    <["api_key" := JStr api_key]>
    (<["api_secret" := JStr api_secret]>
    (<["leverage" := cfg_default_leverage c]>
    (<["risk" := cfg_default_risk c]>
    (<["auto_trade" := JBool false]> ∅)))) in
  let* key := str_of_int user_id in
  Return (save_config (mkManager (set_users c (<[key := entry]> (cfg_users c)))
                                 (mgr_file m))).

(** [ConfigManager.get_user_config] *)
Definition get_user_config (user_id : Z) (m : manager)
    : outcome (option (gmap string json)) :=
  let* key := str_of_int user_id in
  Return (cfg_users (mgr_config m) !! key).

(** [ConfigManager.update_user_setting].  The dictionary it changes is the
    one stored under the user's id. *)
Definition update_user_setting (user_id : Z) (setting : string) (value : json)
    (m : manager) : outcome (bool * manager) :=
  let* key := str_of_int user_id in
  match cfg_users (mgr_config m) !! key with
  | Some user_config =>
      if dict_truthy user_config then
        let users := <[key := <[setting := value]> user_config]> (cfg_users (mgr_config m)) in
        Return (true, save_config (mkManager (set_users (mgr_config m) users) (mgr_file m)))
      else Return (false, m)
  | None => Return (false, m)
  end.

End Config.
Import Config.

(** The texts the bot sends, by kind and by the values they show. *)
Inductive message :=
| MsgUsage
| MsgInvalidCredentials
| MsgCredentialsSaved
| MsgSetupFirst
| MsgSettings (leverage risk auto_trade : json)
| MsgBalance (usdt : float)
| MsgBalanceUnavailable
| MsgError (e : exn)
| MsgAutoTrading (on : bool)
| MsgSignalDetected (signal : TradingSignal) (leverage risk : json)
| MsgSignalNotFound
| MsgTradeOutcome (result : OrderResult) (signal : TradingSignal)
| MsgTradeCancelled
| MsgSelectLeverage
| MsgLeverageSet (leverage : Z)
| MsgSelectRisk
| MsgRiskSet (risk : float).

(** What a handler does on the chat: it answers a callback query, sends a
    message or edits one; [buttons] are the [callback_data] of the inline
    keyboard, in order. *)
Inductive event :=
| Answered
| Replied (m : message) (buttons : list string)
| Edited (m : message) (buttons : list string).

(** [context.user_data]: the program only uses its key ['signals'], a
    dictionary from numbers to signals. *)
Record bot_state := mkBot {
  bot_manager : manager;
  bot_user_data : gmap string (gmap Z TradingSignal);
  bot_events : list event
}.

Definition B (A : Type) : Type := bot_state -> outcome A * bot_state.

Definition retB {A} (v : A) : B A := fun st => (Return v, st).
Definition liftB {A} (o : outcome A) : B A := fun st => (o, st).

Definition bindB {A B'} (m : B A) (k : A -> B B') : B B' :=
  fun st => match m st with
            | (Return v, st') => k v st'
            | (Raise e, st') => (Raise e, st')
            end.

Definition try_catchB {A} (m : B A) (h : exn -> B A) : B A :=
  fun st => match m st with
            | (Return v, st') => (Return v, st')
            | (Raise e, st') => h e st'
            end.

Notation "'let&' x ':=' m 'in' k" := (bindB m (fun x => k))
  (at level 10, x name, m at level 100, k at level 200).
Notation "'do&' m 'in' k" := (bindB m (fun _ => k))
  (at level 10, m at level 100, k at level 200).

Definition emit (e : event) : B unit :=
  fun st => (Return tt, mkBot (bot_manager st) (bot_user_data st) (bot_events st ++ [e])).

Definition get_user_data : B (gmap string (gmap Z TradingSignal)) :=
  fun st => (Return (bot_user_data st), st).

Definition put_user_data (ud : gmap string (gmap Z TradingSignal)) : B unit :=
  fun st => (Return tt, mkBot (bot_manager st) ud (bot_events st)).

(** [self.config_manager.get_user_config(user_id)] *)
Definition user_config_of (user_id : Z) : B (option (gmap string json)) :=
  fun st => (get_user_config user_id (bot_manager st), st).

(** [self.config_manager.update_user_setting(user_id, setting, value)] *)
Definition update_setting (user_id : Z) (setting : string) (value : json) : B bool :=
  fun st => match update_user_setting user_id setting value (bot_manager st) with
            | Return (b, m) => (Return b, mkBot m (bot_user_data st) (bot_events st))
            | Raise e => (Raise e, st)
            end.

(** [self.config_manager.add_user(user_id, api_key, api_secret)] *)
Definition add_user_b (user_id : Z) (api_key api_secret : string) : B unit :=
  fun st => match add_user user_id api_key api_secret (bot_manager st) with
            | Return m => (Return tt, mkBot m (bot_user_data st) (bot_events st))
            | Raise e => (Raise e, st)
            end.

(** [user_config[k]] *)
Definition setting (user_config : gmap string json) (k : string) : outcome json :=
  match user_config !! k with
  | Some v => Return v
  | None => Raise (KeyError k)
  end.

(** [not user_config] *)
Definition no_config (user_config : option (gmap string json)) : bool :=
  match user_config with
  | Some d => negb (dict_truthy d)
  | None => true
  end.

(** Lines 434 to 441 of [handle_message]: the callback data of the
    Execute button, and the user data with the signal stored. *)
Definition store_signal (signal : TradingSignal)
    (ud : gmap string (gmap Z TradingSignal))
    : outcome (string * gmap string (gmap Z TradingSignal)) :=
  let* n := str_of_int (Z.of_nat (size ud)) in
  let data := "execute_" +:+ n in
  let ud1 := match ud !! "signals" with
             | None => <["signals" := ∅]> ud
             | Some _ => ud
             end in
  let signals := default ∅ (ud1 !! "signals") in
  let ud2 := <["signals" := <[Z.of_nat (size ud1) := signal]> signals]> ud1 in
  Return (data, ud2).

(** Lines 455 and 456 of [handle_callback]: the signal an Execute button
    refers to, with its number. *)
Definition find_signal (data : string) (ud : gmap string (gmap Z TradingSignal))
    : outcome (Z * option TradingSignal) :=
  let* item := split_second data in
  let* signal_id := int_of_string item in
  Return (signal_id, default ∅ (ud !! "signals") !! signal_id).

(** [await trader.get_account_balance()] on a trader whose session has
    received no call. *)
Definition fetch_balance (session : venue) : outcome json :=
  fst (get_account_balance session (mkState (new_signal "" "" "") [])).

Section Bot.

(** [BybitTrader(api_key, api_secret).session], by the credentials. *)
Variable connect : json -> json -> venue.

(** Lines 463 to 476 of [handle_callback], for a user with settings: the
    order is placed and the message edited to show its result; the text
    shown and the signal object afterwards. *)
Variable execute_trade :
  gmap string json -> TradingSignal -> outcome message * TradingSignal.

(** [TradingBot.setup_command], with [context.args]. *)
Definition setup_command (user_id : Z) (args : list string) : B unit :=
  match args with
  | [api_key; api_secret] =>
      try_catchB
        (let session := connect (JStr api_key) (JStr api_secret) in
         let& balance := liftB (fetch_balance session) in
         if negb (truthy balance) then emit (Replied MsgInvalidCredentials [])
         else
           do& add_user_b user_id api_key api_secret in
           emit (Replied MsgCredentialsSaved []))
        (fun e => emit (Replied (MsgError e) []))
  | _ => emit (Replied MsgUsage [])
  end.

(** [TradingBot.settings_command] *)
Definition settings_command (user_id : Z) : B unit :=
  let& user_config := user_config_of user_id in
  if no_config user_config then emit (Replied MsgSetupFirst [])
  else
    let cfg := default ∅ user_config in
    let& lev := liftB (setting cfg "leverage") in
    let& risk := liftB (setting cfg "risk") in
    let& auto := liftB (setting cfg "auto_trade") in
    emit (Replied (MsgSettings lev risk auto) ["set_leverage"; "set_risk"; "toggle_auto"]).

(** [TradingBot.balance_command] *)
Definition balance_command (user_id : Z) : B unit :=
  let& user_config := user_config_of user_id in
  if no_config user_config then emit (Replied MsgSetupFirst [])
  else
    let cfg := default ∅ user_config in
    try_catchB
      (let& api_key := liftB (setting cfg "api_key") in
       let& api_secret := liftB (setting cfg "api_secret") in
       let session := connect api_key api_secret in
       let& balance := liftB (fetch_balance session) in
       let& found := liftB (if negb (truthy balance) then Return false
                            else py_in "result" balance) in
       if found then
         let& usdt_balance := liftB (usdt_balance_of balance) in
         emit (Replied (MsgBalance usdt_balance) [])
       else emit (Replied MsgBalanceUnavailable []))
      (fun e => emit (Replied (MsgError e) [])).

(** [TradingBot.toggle_auto_trade] *)
Definition toggle_auto_trade (user_id : Z) : B unit :=
  let& user_config := user_config_of user_id in
  if no_config user_config then emit (Replied MsgSetupFirst [])
  else
    let cfg := default ∅ user_config in
    let& auto := liftB (setting cfg "auto_trade") in
    let new_status := negb (truthy auto) in
    do& update_setting user_id "auto_trade" (JBool new_status) in
    emit (Replied (MsgAutoTrading new_status) []).

(** [TradingBot.handle_message], with [update.message.text]. *)
Definition handle_message (user_id : Z) (text : string) : B unit :=
  let& user_config := user_config_of user_id in
  if no_config user_config then retB tt
  else
    let cfg := default ∅ user_config in
    let& auto := liftB (setting cfg "auto_trade") in
    if negb (truthy auto) then retB tt
    else
      let& parsed := liftB (parse_signal text) in
      match parsed with
      | None => retB tt
      | Some signal =>
          let& lev := liftB (setting cfg "leverage") in
          let& risk := liftB (setting cfg "risk") in
          let& ud := get_user_data in
          let& stored := liftB (store_signal signal ud) in
          do& put_user_data (snd stored) in
          emit (Replied (MsgSignalDetected signal lev risk) [fst stored; "cancel"])
      end.

(** The menus of [handle_callback]: [f"leverage_{lev}"] and
    [f"risk_{risk}"] for the values offered, then the Back button. *)
Definition menu (prefix : string) (values : list Z) : outcome (list string) :=
  let* items := foldr (fun v acc => let* l := acc in
                                    let* s := str_of_int v in
                                    Return ((prefix +:+ s) :: l))
                      (Return []) values in
  Return (items ++ ["back_settings"]).

(** [TradingBot.handle_callback], with [query.data]. *)
Definition handle_callback (user_id : Z) (data : string) : B unit :=
  do& emit Answered in
  let& user_config := user_config_of user_id in
  if startswith "execute_" data then
    let& ud := get_user_data in
    let& found := liftB (find_signal data ud) in
    match snd found with
    | None => emit (Edited MsgSignalNotFound [])
    | Some signal =>
        match user_config with
        | None => liftB (Raise TypeError)
        | Some cfg =>
            let '(shown, signal') := execute_trade cfg signal in
            let signals := <[fst found := signal']> (default ∅ (ud !! "signals")) in
            do& put_user_data (<["signals" := signals]> ud) in
            let& m := liftB shown in
            emit (Edited m [])
        end
    end
  else if String.eqb data "cancel" then emit (Edited MsgTradeCancelled [])
  else if String.eqb data "set_leverage" then
    let& buttons := liftB (menu "leverage_" [5; 10; 20; 25; 50]%Z) in
    emit (Edited MsgSelectLeverage buttons)
  else if startswith "leverage_" data then
    let& item := liftB (split_second data) in
    let& leverage := liftB (int_of_string item) in
    do& update_setting user_id "leverage" (JInt leverage) in
    emit (Edited (MsgLeverageSet leverage) [])
  else if String.eqb data "set_risk" then
    let& buttons := liftB (menu "risk_" [1; 2; 5; 10]%Z) in
    emit (Edited MsgSelectRisk buttons)
  else if startswith "risk_" data then
    let& item := liftB (split_second data) in
    let& risk := liftB (float_of_string item) in
    do& update_setting user_id "risk" (JFloat risk) in
    emit (Edited (MsgRiskSet risk) [])
  else retB tt.

End Bot.

(** ** A sample bot, for examples *)

(** A manager with one user, 42, as [add_user] registers it. *)
Definition sample_manager : manager :=
  match add_user 42 "key" "secret" (mkManager default_config None) with
  | Return m => m
  | Raise _ => mkManager default_config None
  end.

(** The bot after user 42 switched auto trading on. *)
Definition sample_bot : bot_state :=
  snd (toggle_auto_trade 42 (mkBot sample_manager ∅ [])).

(** Trades go to the sample exchange, with leverage 10 and risk 5. *)
Definition sample_execute (cfg : gmap string json) (signal : TradingSignal)
    : outcome message * TradingSignal :=
  let run := run_place_order (sample_session (sample_wallet "1000") "50000")
               signal 10 (float_lit "5") in
  (match fst run with
   | Return r => Return (MsgTradeOutcome r (st_signal (snd run)))
   | Raise e => Raise e
   end,
   st_signal (snd run)).

(** [m1], run on a state whose signal went through [f], does what [m2]
    does on the state itself, and leaves the signal [m2] leaves, through
    [f]. *)
Definition tracks (f : TradingSignal -> TradingSignal) {A} (m1 m2 : M A) : Prop :=
  forall st,
    m1 (mkState (f (st_signal st)) (st_calls st)) =
    (fst (m2 st), mkState (f (st_signal (snd (m2 st)))) (st_calls (snd (m2 st)))).

(** Two sessions that answer alike to every call but [set_leverage]. *)
Definition agree_but_leverage (s1 s2 : venue) : Prop :=
  forall h c, (forall sym lev, c <> SetLeverage sym lev) -> s1 h c = s2 h c.

(* ===================================================================== *)
(** * Properties of the order sizer *)
(* ===================================================================== *)

Section TraderFacts.

Variable session : venue.
Variable signal : TradingSignal.
Variable user_leverage : Z.
Variable user_risk : float.

Lemma set_leverage_run sym lev st :
  exists b, set_leverage session sym lev st =
            (Return b, mkState (st_signal st) (st_calls st ++ [SetLeverage sym lev])).
Proof.
  unfold set_leverage, try_catch, bind, call_session, lift, ret.
  destruct (session (st_calls st) (SetLeverage sym lev)) as [r|e]; [|eauto].
  destruct (getitem r "retCode"); eauto.
Qed.

Lemma get_account_balance_run st :
  get_account_balance session st =
  (Return (match session (st_calls st) GetWalletBalance with
           | Return b => b
           | Raise _ => JDict []
           end),
   mkState (st_signal st) (st_calls st ++ [GetWalletBalance])).
Proof.
  unfold get_account_balance, try_catch, call_session, ret.
  destruct (session (st_calls st) GetWalletBalance); reflexivity.
Qed.

Lemma resolve_price_run st : price_resolved session st (resolve_price session st).
Proof.
  unfold resolve_price, bind, get_signal, call_session, lift, raise, update_signal, ret.
  destruct (String.eqb_spec (order_type (st_signal st)) "MARKET") as [Hm|Hm].
  - destruct (session (st_calls st) (GetTickers (symbol (st_signal st)))) as [t|e] eqn:Ht;
      [|by apply PriceFailed].
    destruct (getitem t "retCode") as [rc|e]; [|by apply PriceFailed].
    destruct (eq_zero rc); simpl; [|by apply PriceFailed].
    destruct (last_price_of t) as [p|e] eqn:Hp; [|by apply PriceFailed].
    simpl. by eapply PriceSet.
  - by apply PriceKept.
Qed.

Lemma risk_amount_returns bal risk :
  risk_amount bal risk = Return (risk_of risk bal).
Proof. reflexivity. Qed.

(** Every call of [place_order] returns, and its run is one of
    [order_run]. *)
Lemma place_order_run :
  exists r st,
    run_place_order session signal user_leverage user_risk = (Return r, st) /\
    order_run session signal user_leverage user_risk r st.
Proof.
  set (h2 := first_calls signal user_leverage).
  set (snapshot := balance_snapshot session signal user_leverage).
  unfold run_place_order, place_order, place_order_body, try_catch.
  unfold bind at 1. unfold get_signal at 1. cbn [st_signal].
  unfold bind at 1.
  destruct (set_leverage_run (symbol signal) user_leverage (mkState signal []))
    as [b ->]. cbn [st_signal st_calls app].
  unfold bind at 1. rewrite get_account_balance_run. cbn [st_signal st_calls app].
  fold (balance_snapshot session signal user_leverage). fold snapshot.
  fold (first_calls signal user_leverage). fold h2.
  unfold bind at 1, lift at 1.
  destruct (check_balance snapshot) as [bal|e] eqn:Hbal.
  2:{ eexists _, _. split; [reflexivity|]. by apply AbortedAtBalance. }
  unfold bind at 1, lift at 1. rewrite risk_amount_returns.
  unfold bind at 1.
  pose proof (resolve_price_run (mkState signal h2)) as Hp.
  inversion Hp as [Hm Heq|e Hm Heq|ticker p Hm Ht Hl Heq]; cbn [st_signal st_calls] in *.
  - unfold bind at 1, get_signal at 1. cbn [st_signal].
    unfold bind at 1, lift at 1.
    destruct (order_qty _ user_leverage (entry_price signal)) as [qty|e] eqn:Hq.
    + exists (report session h2 (build_order_params signal qty)),
             (mkState signal (h2 ++ [PlaceOrder (build_order_params signal qty)])).
      split; [|eapply Submitted; eauto using PricedLimit].
      unfold bind, call_session, lift, ret, report. cbn [st_signal st_calls].
      destruct (session h2 _) as [res|e]; [|reflexivity].
      destruct (getitem res "retCode"); reflexivity.
    + eexists _, _. split; [reflexivity|].
      eapply AbortedAtSizing; eauto using PricedLimit.
  - eexists _, _. split; [reflexivity|]. by eapply AbortedAtPrice.
  - unfold bind at 1, get_signal at 1. cbn [st_signal].
    unfold bind at 1, lift at 1.
    assert (Hpr : priced session signal user_leverage
                         (set_entry_price signal (Some p))
                         (h2 ++ [GetTickers (symbol signal)]))
      by (eapply PricedMarket; eauto).
    destruct (order_qty _ user_leverage (entry_price (set_entry_price signal (Some p))))
      as [qty|e] eqn:Hq.
    + set (sg := set_entry_price signal (Some p)) in *.
      set (calls := h2 ++ [GetTickers (symbol signal)]) in *.
      exists (report session calls (build_order_params sg qty)),
             (mkState sg (calls ++ [PlaceOrder (build_order_params sg qty)])).
      split; [|eapply Submitted; eauto].
      unfold bind, call_session, lift, ret, report. cbn [st_signal st_calls].
      subst calls h2. unfold first_calls. cbn [app].
      destruct (session _ (PlaceOrder _)) as [res|e]; [|reflexivity].
      destruct (getitem res "retCode"); reflexivity.
    + eexists _, _. split; [reflexivity|].
      eapply AbortedAtSizing; eauto.
Qed.

End TraderFacts.

Lemma is_zero_not_gt f : is_zero f = true -> gt_zero f = false.
Proof. by destruct f as [[]|[]| |[] m e]. Qed.

Lemma py_in_truthy b : py_in "result" b = Return true -> truthy b = true.
Proof.
  destruct b as [| | | |s|l|d]; simpl; try discriminate.
  - by destruct s.
  - by destruct l.
  - by destruct d.
Qed.

Lemma check_balance_problem b msg :
  balance_problem b msg -> check_balance b = Raise (Exception msg).
Proof.
  unfold check_balance. intros [Ht|Hr|f Hr Hf Hz].
  - by rewrite Ht.
  - destruct (truthy b); simpl; [by rewrite Hr|done].
  - rewrite (py_in_truthy _ Hr), Hr. cbn [negb obind]. rewrite Hf. cbn [obind].
    by rewrite Hz.
Qed.

Lemma check_balance_value b bal :
  check_balance b = Return bal ->
  usdt_balance_of b = Return bal /\ is_zero bal = false.
Proof.
  unfold check_balance.
  destruct (if negb (truthy b) then _ else _) as [[]|]; simpl; try discriminate.
  destruct (usdt_balance_of b) as [f|]; simpl; [|discriminate].
  destruct (is_zero f) eqn:Hz; [discriminate|].
  intros [= ->]. done.
Qed.

Lemma find_usdt_other items f :
  Forall other_currency items -> find_usdt items f = Return f.
Proof.
  induction 1 as [|coin items (c & Hc & Hne) _ IH]; [done|].
  simpl. by rewrite Hc; simpl; rewrite Hne.
Qed.

Lemma order_qty_value ramt lev entry qty :
  order_qty ramt lev entry = Return qty ->
  exists levf price,
    float_of_int lev = Return levf /\ entry = Some price /\
    qty = py_round (SFdiv prec emax (fmul ramt levf) price) 6.
Proof.
  unfold order_qty, fdiv.
  destruct (float_of_int lev) as [levf|]; simpl; [|discriminate].
  destruct entry as [price|]; simpl; [|discriminate].
  destruct (is_zero price); simpl; [discriminate|].
  intros [= <-]. eauto.
Qed.

Lemma priced_calls session signal lev sg calls :
  priced session signal lev sg calls -> no_order_submitted calls.
Proof. by intros []. Qed.

Lemma priced_frame session signal lev sg calls :
  priced session signal lev sg calls -> same_but_price sg signal.
Proof. intros []; repeat split. Qed.

Lemma build_order_params_tp sg qty :
  build_order_params sg qty !! "takeProfit" =
  if gt_zero (take_profit sg) then Some (StrOfFloat (take_profit sg)) else None.
Proof.
  unfold build_order_params.
  destruct (gt_zero (stop_loss sg)), (gt_zero (take_profit sg)),
    (String.eqb (order_type sg) "LIMIT");
    repeat (rewrite lookup_insert_ne by done); try by rewrite lookup_insert_eq.
  all: by rewrite lookup_empty.
Qed.

Lemma build_order_params_sl sg qty :
  build_order_params sg qty !! "stopLoss" =
  if gt_zero (stop_loss sg) then Some (StrOfFloat (stop_loss sg)) else None.
Proof.
  unfold build_order_params.
  destruct (gt_zero (stop_loss sg)), (gt_zero (take_profit sg)),
    (String.eqb (order_type sg) "LIMIT");
    repeat (rewrite lookup_insert_ne by done); try by rewrite lookup_insert_eq.
  all: by rewrite lookup_empty.
Qed.

Lemma build_order_params_qty sg qty :
  build_order_params sg qty !! "qty" = Some (StrOfFloat qty).
Proof.
  unfold build_order_params.
  destruct (gt_zero (stop_loss sg)), (gt_zero (take_profit sg)),
    (String.eqb (order_type sg) "LIMIT");
    repeat (rewrite lookup_insert_ne by done); by rewrite lookup_insert_eq.
Qed.

(** The orders a run submits: at most one, the last call, built from the
    priced signal. *)
Lemma order_run_orders session signal lev risk r st params :
  order_run session signal lev risk r st ->
  In (PlaceOrder params) (st_calls st) ->
  exists bal sg calls qty,
    check_balance (balance_snapshot session signal lev) = Return bal /\
    priced session signal lev sg calls /\
    order_qty (risk_of risk bal) lev (entry_price sg) = Return qty /\
    params = build_order_params sg qty /\
    st = mkState sg (calls ++ [PlaceOrder params]) /\
    r = report session calls params.
Proof.
  intros Hrun Hin.
  assert (Hno : forall calls, no_order_submitted calls ->
                              ~ In (PlaceOrder params) calls).
  { unfold no_order_submitted. intros calls Hc Hi.
    rewrite forallb_forall in Hc. by specialize (Hc _ Hi). }
  destruct Hrun as [e Hb|bal e Hb Hm|bal sg calls e Hb Hp Hq|bal sg calls qty Hb Hp Hq];
    cbn [st_calls] in Hin.
  - by apply Hno in Hin.
  - by apply Hno in Hin.
  - apply Hno in Hin; [done|]. by eapply priced_calls.
  - apply in_app_or in Hin as [Hin|[Heq|[]]].
    + apply Hno in Hin; [done|]. by eapply priced_calls.
    + injection Heq as <-. by exists bal, sg, calls, qty.
Qed.

(** ** Sizing *)

(** C1.  Whenever [place_order] returns the dictionary of a submitted
    order, the quantity it submitted is
    [round((balance * (risk / 100) * leverage) / entry_price, 6)], where
    [balance] is the USDT balance of the snapshot and [entry_price] the
    price the signal carries at submission.  With balance 1000, risk 5,
    leverage 10 and entry price 50000 the amount at risk is 50 and the
    quantity 0.01. *)
Theorem order_quantity_formula :
  (forall session signal lev risk success result params st,
      run_place_order session signal lev risk
        = (Return (Completed success result params), st) ->
      exists balance levf entry,
        usdt_balance_of (balance_snapshot session signal lev) = Return balance /\
        float_of_int lev = Return levf /\
        entry_price (st_signal st) = Some entry /\
        In (PlaceOrder params) (st_calls st) /\
        params !! "qty" =
          Some (StrOfFloat
                  (py_round
                     (SFdiv prec emax
                        (fmul (fmul balance (SFdiv prec emax risk (float_lit "100")))
                              levf)
                        entry)
                     6))) /\
  risk_amount (float_lit "1000") (float_lit "5") = Return (float_lit "50") /\
  order_qty (float_lit "50") 10 (Some (float_lit "50000")) = Return (float_lit "0.01").
Proof.
  split; [|split; vm_compute; reflexivity].
  intros session signal lev risk success result params st Hrun.
  destruct (place_order_run session signal lev risk) as (r & st' & Hrun' & Horder).
  rewrite Hrun in Hrun'. injection Hrun' as <- <-.
  inversion Horder as [| | |bal sg calls qty Hb Hp Hq Hrep Hst]; subst st.
  apply check_balance_value in Hb as [Hb _].
  apply order_qty_value in Hq as (levf & price & Hlev & Hentry & ->).
  assert (params = build_order_params sg
            (py_round (SFdiv prec emax (fmul (risk_of risk bal) levf) price) 6)) as ->.
  { unfold report in Hrep.
    destruct (session calls _) as [res|]; [|discriminate].
    destruct (getitem res "retCode"); [|discriminate].
    by injection Hrep. }
  exists bal, levf, price. cbn [st_signal st_calls].
  repeat split; try done.
  - apply in_or_app. right. by left.
  - by rewrite build_order_params_qty.
Qed.

(** A MARKET order on the sample exchange: wallet 1000 USDT, last price
    50000, leverage 10, risk 5 percent. *)
Lemma order_quantity_formula_witness :
  exists params,
    In (PlaceOrder params)
       (st_calls (snd (run_place_order (sample_session (sample_wallet "1000") "50000")
                         (new_signal "LONG" "BTCUSDT" "MARKET") 10 (float_lit "5")))) /\
    params !! "qty" = Some (StrOfFloat (float_lit "0.01")).
Proof.
  pose proof (proj1 order_quantity_formula
                (sample_session (sample_wallet "1000") "50000")
                (new_signal "LONG" "BTCUSDT" "MARKET") 10 (float_lit "5")) as H.
  destruct (run_place_order _ _ _ _) as [[[success result params|]|] st] eqn:Hrun;
    try (vm_compute in Hrun; discriminate).
  destruct (H success result params st eq_refl)
    as (balance & levf & entry & Hb & Hl & He & Hin & Hq).
  exists params. split; [exact Hin|].
  rewrite Hq. do 2 f_equal.
  vm_compute in Hb. injection Hb as <-.
  vm_compute in Hl. injection Hl as <-.
  vm_compute in Hrun. injection Hrun as _ _ _ <-.
  vm_compute in He. injection He as <-.
  vm_compute. reflexivity.
Defined.

(** ** Balance checks *)

(** A run whose balance check raises ends there. *)
Lemma balance_check_aborts session signal lev risk e :
  check_balance (balance_snapshot session signal lev) = Raise e ->
  exists st,
    run_place_order session signal lev risk = (Return (Failed e), st) /\
    no_order_submitted (st_calls st).
Proof.
  intros Hcheck.
  destruct (place_order_run session signal lev risk) as (r & st & Hrun & Horder).
  exists st.
  inversion Horder as [e' Hb|bal e' Hb|bal sg calls e' Hb|bal sg calls qty Hb];
    rewrite Hcheck in Hb; try discriminate.
  injection Hb as <-. subst. by split.
Qed.

(** C2.  When the balance snapshot is empty, has no ['result'], or the
    USDT balance read from its coin list is zero, [place_order] returns
    [{'success': False, 'error': msg}] with the message of that balance
    problem, and no order has reached the exchange. *)
Theorem unusable_balance_aborts session signal lev risk msg :
  balance_problem (balance_snapshot session signal lev) msg ->
  exists st,
    run_place_order session signal lev risk = (Return (Failed (Exception msg)), st) /\
    no_order_submitted (st_calls st).
Proof.
  intros Hprob%check_balance_problem. by apply balance_check_aborts.
Qed.

(** A wallet whose USDT balance is 0. *)
Lemma unusable_balance_aborts_witness :
  exists st,
    run_place_order (sample_session (sample_wallet "0") "50000")
      (new_signal "LONG" "BTCUSDT" "MARKET") 10 (float_lit "5")
      = (Return (Failed (Exception "No USDT balance found")), st) /\
    no_order_submitted (st_calls st).
Proof.
  apply unusable_balance_aborts.
  apply (ZeroBalance _ fzero); vm_compute; reflexivity.
Defined.

(** C10.  When the snapshot has a ['result'] and no entry of its coin list
    has the currency code USDT, the balance read is the zero the loop
    starts from, and [place_order] answers as for a zero balance: the error
    is "No USDT balance found" and no order has reached the exchange. *)
Theorem missing_usdt_aborts session signal lev risk items :
  py_in "result" (balance_snapshot session signal lev) = Return true ->
  coin_list_of (balance_snapshot session signal lev) = Return items ->
  Forall other_currency items ->
  usdt_balance_of (balance_snapshot session signal lev) = Return fzero /\
  exists st,
    run_place_order session signal lev risk
      = (Return (Failed (Exception "No USDT balance found")), st) /\
    no_order_submitted (st_calls st).
Proof.
  intros Hres Hcoins Hother.
  assert (Hbal : usdt_balance_of (balance_snapshot session signal lev) = Return fzero).
  { unfold usdt_balance_of. rewrite Hcoins. simpl. by apply find_usdt_other. }
  split; [done|].
  apply balance_check_aborts, check_balance_problem.
  by apply (ZeroBalance _ fzero).
Qed.

(** A wallet that holds only BTC. *)
Lemma missing_usdt_aborts_witness :
  let wallet :=
    JDict [("retCode", JInt 0);
           ("result", JDict [("list", JList [JDict [("coin",
              JList [JDict [("coin", JStr "BTC"); ("walletBalance", JStr "0.5")]])]])])] in
  usdt_balance_of wallet = Return fzero /\
  exists st,
    run_place_order (sample_session wallet "50000")
      (new_signal "LONG" "BTCUSDT" "MARKET") 10 (float_lit "5")
      = (Return (Failed (Exception "No USDT balance found")), st) /\
    no_order_submitted (st_calls st).
Proof.
  intros wallet.
  apply (missing_usdt_aborts (sample_session wallet "50000")
           (new_signal "LONG" "BTCUSDT" "MARKET") 10 (float_lit "5")
           [JDict [("coin", JStr "BTC"); ("walletBalance", JStr "0.5")]]).
  - reflexivity.
  - reflexivity.
  - constructor; [|constructor]. exists (JStr "BTC"). split; reflexivity.
Defined.

(** ** The order request *)

(** C7.  In every order request [place_order] sends, the take-profit field
    is present exactly when the signal's [take_profit] is greater than
    zero, and then it is [str(take_profit)]; likewise for the stop-loss
    field; when both are zero the request has neither field. *)
Theorem order_request_tp_sl session signal lev risk params :
  In (PlaceOrder params) (st_calls (snd (run_place_order session signal lev risk))) ->
  (is_Some (params !! "takeProfit") <-> gt_zero (take_profit signal) = true) /\
  (is_Some (params !! "stopLoss") <-> gt_zero (stop_loss signal) = true) /\
  (gt_zero (take_profit signal) = true ->
   params !! "takeProfit" = Some (StrOfFloat (take_profit signal))) /\
  (gt_zero (stop_loss signal) = true ->
   params !! "stopLoss" = Some (StrOfFloat (stop_loss signal))) /\
  (is_zero (take_profit signal) = true -> is_zero (stop_loss signal) = true ->
   params !! "takeProfit" = None /\ params !! "stopLoss" = None).
Proof.
  intros Hin.
  destruct (place_order_run session signal lev risk) as (r & st & Hrun & Horder).
  rewrite Hrun in Hin. cbn [snd] in Hin.
  destruct (order_run_orders _ _ _ _ _ _ _ Horder Hin)
    as (bal & sg & calls & qty & _ & Hp & _ & -> & _).
  apply priced_frame in Hp as (_ & _ & _ & Htp & Hsl & _).
  rewrite build_order_params_tp, build_order_params_sl, Htp, Hsl.
  assert (Hsome : forall (b : bool) (v : pystr),
             is_Some (if b then Some v else None) <-> b = true).
  { intros [] v; split; done. }
  split; [apply Hsome|]. split; [apply Hsome|].
  split; [by intros ->|]. split; [by intros ->|].
  by intros ->%is_zero_not_gt ->%is_zero_not_gt.
Qed.

(** A LIMIT order with a take profit and no stop loss. *)
Lemma order_request_tp_sl_witness :
  let signal :=
    set_take_profit
      (set_entry_price (new_signal "LONG" "BTCUSDT" "LIMIT") (Some (float_lit "50000")))
      (float_lit "52000") in
  let params := build_order_params signal (float_lit "0.01") in
  params !! "takeProfit" = Some (StrOfFloat (float_lit "52000")) /\
  ~ is_Some (params !! "stopLoss").
Proof.
  intros signal params.
  destruct (order_request_tp_sl (sample_session (sample_wallet "1000") "50000")
              signal 10 (float_lit "5") params) as (_ & Hsl & Htp & _).
  - vm_compute. right. right. left. reflexivity.
  - split.
    + apply Htp. reflexivity.
    + intros H%Hsl. discriminate H.
Defined.

(** ** The signal object *)

(** C8.  On return from [place_order] every field of the signal other than
    [entry_price] is as it was; [entry_price] is as it was unless the order
    type is MARKET, in particular for LIMIT orders; and when it has
    changed it is the last traded price the exchange answered. *)
Theorem place_order_frame session signal lev risk :
  let signal' := st_signal (snd (run_place_order session signal lev risk)) in
  direction signal' = direction signal /\
  symbol signal' = symbol signal /\
  order_type signal' = order_type signal /\
  take_profit signal' = take_profit signal /\
  stop_loss signal' = stop_loss signal /\
  leverage signal' = leverage signal /\
  risk_percentage signal' = risk_percentage signal /\
  (order_type signal <> "MARKET" -> signal' = signal) /\
  (order_type signal = "LIMIT" -> entry_price signal' = entry_price signal) /\
  (signal' = signal \/
   order_type signal = "MARKET" /\
   exists ticker price,
     ticker_response session signal lev = Return ticker /\
     last_price_of ticker = Return price /\
     signal' = set_entry_price signal (Some price)).
Proof.
  destruct (place_order_run session signal lev risk) as (r & st & Hrun & Horder).
  rewrite Hrun. cbn [snd].
  assert (Hcases : st_signal st = signal \/
            order_type signal = "MARKET" /\
            exists ticker price,
              ticker_response session signal lev = Return ticker /\
              last_price_of ticker = Return price /\
              st_signal st = set_entry_price signal (Some price)).
  { destruct Horder as [e Hb|bal e Hb Hm|bal sg calls e Hb Hp Hq|bal sg calls qty Hb Hp Hq];
      cbn [st_signal]; try (by left).
    all: destruct Hp as [Hm|ticker p Hm Ht Hl]; [by left|right; eauto 6]. }
  destruct Hcases as [->|(Hm & ticker & price & Ht & Hl & ->)].
  - repeat split; auto.
  - repeat split; auto.
    + by intros [].
    + rewrite Hm. discriminate.
    + right. eauto 6.
Qed.

(* ===================================================================== *)
(** * Properties of the matcher *)
(* ===================================================================== *)

Lemma starts_with_spec p s :
  starts_with p s = true <-> exists t, s = p ++ t.
Proof.
  revert s. induction p as [|a p IH]; intros s; simpl.
  - split; eauto.
  - destruct s as [|b s].
    + split; [done|]. by intros [t Ht].
    + destruct (Ascii.eqb_spec a b) as [->|Hne].
      * rewrite IH. split; intros [t Ht]; exists t; congruence.
      * split; [done|]. intros [t Ht]. congruence.
Qed.

Lemma starts_with_take p s :
  starts_with p s = true <-> (length p <= length s)%nat /\ take (length p) s = p.
Proof.
  rewrite starts_with_spec. split.
  - intros [t ->]. rewrite length_app, take_app_length. split; [lia|done].
  - intros [Hl Ht]. exists (drop (length p) s).
    by rewrite <- Ht at 1; rewrite take_drop.
Qed.


Lemma run_spec p s k :
  (k <= run p s)%nat <-> (k <= length s)%nat /\ forallb p (take k s) = true.
Proof.
  revert k. induction s as [|c s IH]; intros k; simpl.
  - rewrite take_nil. simpl. tauto.
  - destruct k as [|k]; simpl.
    + split; [split; [lia|done]|lia].
    + destruct (p c); simpl.
      * rewrite <- !Nat.succ_le_mono. apply IH.
      * split; [lia|]. intros [_ ?]. done.
Qed.

Lemma countdown_spec n min k :
  In k (countdown n min) <-> (min <= k <= n)%nat.
Proof.
  induction n as [|n IH]; simpl.
  - destruct (Nat.ltb_spec 0 min); simpl; lia.
  - destruct (Nat.ltb_spec (S n) min) as [Hlt|Hge]; simpl; [lia|].
    rewrite IH. lia.
Qed.

Lemma candidates_spec n s k :
  In k (candidates n s) <-> (k <= length s)%nat /\ lang_node n (take k s).
Proof.
  assert (Hlit : forall l,
    In k (if starts_with l s then [length l] else []) <->
    (k <= length s)%nat /\ take k s = l).
  { intros l. destruct (starts_with l s) eqn:Hs; simpl.
    - apply starts_with_take in Hs as [Hl Ht]. split.
      + intros [<-|[]]. done.
      + intros [Hk Hk']. left.
        rewrite <- Hk', length_take. lia.
    - split; [done|]. intros [Hk Hk'].
      assert (starts_with l s = true); [|congruence].
      apply starts_with_take. rewrite <- Hk', length_take.
      replace (k `min` length s)%nat with k by lia. done. }
  induction n as [l|a b|min c|l|n IH]; simpl.
  - apply Hlit.
  - rewrite in_app_iff, !Hlit. tauto.
  - rewrite countdown_spec. split.
    + intros [Hmin Hrun]. apply run_spec in Hrun as [Hk Hall].
      rewrite length_take. split; [done|]. split; [lia|done].
    + intros (Hk & Hmin & Hall). rewrite length_take in Hmin.
      split; [lia|]. by apply run_spec.
  - rewrite in_app_iff, Hlit. simpl. split.
    + intros [[? ?]|[<-|[]]]; [by auto|]. split; [lia|by right].
    + intros [Hk [Hl|Hnil]]; [by left|]. right. left.
      apply (f_equal length) in Hnil. rewrite length_take in Hnil. simpl in Hnil. lia.
  - apply IH.
Qed.

Lemma first_success_some {A} (f : nat -> option A) ks x :
  first_success f ks = Some x -> exists k, In k ks /\ f k = Some x.
Proof.
  induction ks as [|k ks IH]; simpl; [done|].
  destruct (f k) eqn:Hf.
  - intros [= <-]. eauto.
  - intros (k' & ? & ?)%IH. eauto.
Qed.

Lemma first_success_none {A} (f : nat -> option A) ks :
  first_success f ks = None <-> forall k, In k ks -> f k = None.
Proof.
  induction ks as [|k ks IH]; simpl; [by split|].
  destruct (f k) eqn:Hf.
  - split; [done|]. intros H. rewrite <- Hf. auto.
  - rewrite IH. split.
    + intros H k' [<-|Hin]; auto.
    + auto.
Qed.


Lemma match_here_sound r s g :
  match_here r s = Some g ->
  exists w post, s = w ++ post /\ lang_cap r w g.
Proof.
  revert s g. induction r as [|n r IH]; simpl; intros s g.
  - intros [= <-]. by exists [], s.
  - intros (k & Hk & Hf)%first_success_some.
    apply candidates_spec in Hk as [Hk Hn].
    destruct (match_here r (drop k s)) as [g'|] eqn:Hm; [|done].
    injection Hf as <-.
    apply IH in Hm as (w2 & post & Hd & Hr).
    exists (take k s ++ w2), post. split.
    + by rewrite <- app_assoc, <- Hd, take_drop.
    + exists (take k s), w2, g'. done.
Qed.

Lemma match_here_complete r w post :
  lang r w -> match_here r (w ++ post) <> None.
Proof.
  revert w. induction r as [|n r IH]; simpl; intros w.
  - done.
  - intros (w1 & w2 & -> & Hn & Hr) Hnone.
    rewrite first_success_none in Hnone.
    specialize (Hnone (length w1)).
    rewrite <- app_assoc, drop_app_length in Hnone.
    specialize (IH _ Hr).
    destruct (match_here r (w2 ++ post)); [|done].
    discriminate Hnone.
    apply candidates_spec. rewrite take_app_length, length_app. split; [lia|done].
Qed.


Lemma search_some r s g :
  search r s = Some g -> exists pre w, first_occurrence r s pre w g.
Proof.
  induction s as [|c s IH]; simpl.
  - destruct (match_here r []) as [g'|] eqn:Hm; [|done].
    intros [= <-]. apply match_here_sound in Hm as (w & post & Hs & Hw).
    exists [], w. repeat split; eauto. intros; simpl; lia.
  - destruct (match_here r (c :: s)) as [g'|] eqn:Hm.
    + intros [= <-]. apply match_here_sound in Hm as (w & post & Hs & Hw).
      exists [], w. repeat split; eauto. intros; simpl; lia.
    + intros (pre & w & (post & ->) & Hw & Hfirst)%IH.
      exists (c :: pre), w. repeat split; eauto.
      intros pre' w' post' Hs Hw'. destruct pre' as [|c' pre'].
      * simpl in Hs. apply (match_here_complete r w' post') in Hw'. congruence.
      * injection Hs as -> Hs. simpl. apply le_n_S. eauto.
Qed.



Lemma search_group1_some r s t :
  search_group1 r s = Some t ->
  exists pre w, first_occurrence r s pre w (Some t).
Proof.
  unfold search_group1.
  destruct (search r s) as [[t'|]|] eqn:Hs; try done.
  intros [= <-]. by apply search_some.
Qed.

(* ===================================================================== *)
(** * Properties of the signal parser *)
(* ===================================================================== *)

Lemma chars_text_of l : chars (text_of l) = l.
Proof. apply list_ascii_of_string_of_list_ascii. Qed.

Lemma text_of_chars s : text_of (chars s) = s.
Proof. apply string_of_list_ascii_of_string. Qed.

(** [parse_signal_body] computes the fields one after the other. *)
Lemma parse_signal_body_eq text :
  parse_signal_body text =
  let s := clean text in
  match search_group1 direction_re s with
  | None => Return None
  | Some d =>
      match search_group1 symbol_re s with
      | None => Return None
      | Some b =>
          let* oe := entry_value s in
          let* lev := field_value leverage_re int_of_string default_leverage s in
          let* tp := field_value tp_re float_of_string fzero s in
          let* sl := field_value sl_re float_of_string fzero s in
          let* rk := field_value risk_re float_of_string default_risk s in
          Return (Some (mkSignal (text_of d) (text_of b +:+ "USDT")
                                 (fst oe) (snd oe) tp sl lev rk))
      end
  end.
Proof.
  unfold parse_signal_body, parse_order_type, parse_field, entry_value, field_value.
  cbv zeta.
  destruct (search_group1 direction_re (clean text)) as [d|]; [|done].
  destruct (search_group1 symbol_re (clean text)) as [b|]; [|done].
  destruct (has_substring (chars "LIMIT ORDER") (clean text));
    [destruct (search_group1 limit_re (clean text)) as [g|];
       [destruct (float_of_string (text_of g)); [|done]|]|];
    cbn [obind];
    (destruct (search_group1 leverage_re (clean text)) as [gl|];
       [destruct (int_of_string (text_of gl)); [|done]|]);
    cbn [obind];
    (destruct (search_group1 tp_re (clean text)) as [gt|];
       [destruct (float_of_string (text_of gt)); [|done]|]);
    cbn [obind];
    (destruct (search_group1 sl_re (clean text)) as [gs|];
       [destruct (float_of_string (text_of gs)); [|done]|]);
    cbn [obind];
    (destruct (search_group1 risk_re (clean text)) as [gr|];
       [destruct (float_of_string (text_of gr)); [|done]|]);
    reflexivity.
Qed.

(** ** Characters of the numeric classes *)

Lemma digit_dot_char a :
  in_class DigitDot a = true ->
  is_c_space a = false /\ is_space a = false /\ lower_char a = a /\
  Ascii.eqb a "_" = false /\ Ascii.eqb a "-" = false /\ Ascii.eqb a "+" = false /\
  a <> "i"%char /\ a <> "n"%char /\
  Ascii.eqb a "e" = false /\ Ascii.eqb a "E" = false /\
  (is_digit a = false -> a = "."%char).
Proof.
  destruct a as [[] [] [] [] [] [] [] []]; vm_compute; intros H;
    try discriminate H; repeat split; try discriminate; try done.
Qed.

Lemma digit_is_digit_dot a : is_digit a = true -> in_class DigitDot a = true.
Proof. simpl. by intros ->. Qed.

Lemma forallb_impl {A} (p q : A -> bool) l :
  (forall x, p x = true -> q x = true) ->
  forallb p l = true -> forallb q l = true.
Proof.
  intros Hpq. rewrite !forallb_forall. auto.
Qed.

Lemma forallb_rev {A} (p : A -> bool) l :
  forallb p l = true -> forallb p (rev l) = true.
Proof.
  rewrite !forallb_forall. intros H x Hx. apply H. by apply in_rev.
Qed.

Lemma lstrip_by_id p s :
  forallb (fun c => negb (p c)) s = true -> lstrip_by p s = s.
Proof.
  destruct s as [|c s]; simpl; [done|].
  intros [Hc _]%andb_true_iff. by destruct (p c).
Qed.

Lemma strip_by_id p s :
  forallb (fun c => negb (p c)) s = true -> strip_by p s = s.
Proof.
  intros H. unfold strip_by.
  rewrite (lstrip_by_id p s H), (lstrip_by_id p (rev s)) by by apply forallb_rev.
  apply rev_involutive.
Qed.

Lemma no_underscore g :
  forallb (in_class DigitDot) g = true -> has_substring ["_"%char] g = false.
Proof.
  induction g as [|c g IH]; [done|].
  cbn [forallb has_substring starts_with].
  intros [Hc Hg]%andb_true_iff.
  destruct (digit_dot_char c Hc) as (_ & _ & _ & Hu & _).
  rewrite Ascii.eqb_sym, Hu. auto.
Qed.

Lemma run_all p s : forallb p s = true -> run p s = length s.
Proof.
  induction s as [|c s IH]; simpl; [done|].
  intros [-> Hs]%andb_true_iff. by rewrite IH.
Qed.

Lemma run_app_stop p s c t :
  forallb p s = true -> p c = false -> run p (s ++ c :: t) = length s.
Proof.
  induction s as [|a s IH]; simpl.
  - by intros _ ->.
  - intros [-> Hs]%andb_true_iff Hc. by rewrite IH.
Qed.

Lemma run_prefix p s :
  forallb p (take (run p s) s) = true /\
  match drop (run p s) s with
  | c :: _ => p c = false
  | [] => True
  end.
Proof.
  induction s as [|c s IH]; simpl; [done|].
  destruct (p c) eqn:Hc; simpl; [|done].
  by rewrite Hc.
Qed.

(** ** [float] and [int] on the tokens the patterns capture *)

Lemma float_of_token g :
  g <> [] -> forallb (in_class DigitDot) g = true ->
  float_of_string (text_of g) =
  match parse_decimal false g with
  | Some f => Return f
  | None => Raise ValueError
  end.
Proof.
  intros Hne Hg. unfold float_of_string.
  rewrite chars_text_of, (no_underscore g Hg).
  rewrite strip_by_id.
  2:{ eapply forallb_impl; [|exact Hg]. intros x Hx.
      by destruct (digit_dot_char x Hx) as (-> & _). }
  destruct g as [|a g]; [done|]. simpl in Hg.
  apply andb_true_iff in Hg as [Ha Hg].
  destruct (digit_dot_char a Ha) as (_ & _ & Hl & _ & Hm & Hp & Hi & Hn & _).
  unfold take_sign. rewrite Hm, Hp.
  assert (Hci : forall t, ci_equal (a :: g) t = true -> exists t', t = String a t').
  { intros t. unfold ci_equal. case_decide as Heq; [|done]. intros _.
    destruct t as [|c t]; [done|]. simpl in Heq. rewrite Hl in Heq.
    injection Heq as -> _. eauto. }
  destruct (ci_equal (a :: g) "inf") eqn:H1.
  { apply Hci in H1 as [t' Ht']. injection Ht' as <- _. done. }
  destruct (ci_equal (a :: g) "infinity") eqn:H2.
  { apply Hci in H2 as [t' Ht']. injection Ht' as <- _. done. }
  destruct (ci_equal (a :: g) "nan") eqn:H3.
  { apply Hci in H3 as [t' Ht']. injection Ht' as <- _. done. }
  reflexivity.
Qed.

Lemma parse_decimal_token g :
  forallb (in_class DigitDot) g = true ->
  match parse_decimal false g with
  | Some f => decimal_token g /\ decimal_value g f
  | None => ~ decimal_token g
  end.
Proof.
  intros Hg.
  assert (Hdig : forall ip, forallb is_digit ip = true ->
                            forall t, run is_digit (ip ++ "."%char :: t) = length ip).
  { intros ip Hip t. by apply run_app_stop. }
  assert (Hnot : forall ip fp, forallb is_digit ip = true -> forallb is_digit fp = true ->
             (g = ip /\ fp = [] \/ g = ip ++ "."%char :: fp) ->
             parse_decimal false g =
             match ip ++ fp with
             | [] => None
             | _ => Some (decimal_to_float false (digits_value (ip ++ fp))
                            (- Z.of_nat (length fp)))
             end).
  { intros ip fp Hip Hfp [ [-> ->] | -> ]; unfold parse_decimal.
    - rewrite (run_all _ _ Hip), firstn_all, skipn_all. simpl.
      rewrite app_nil_r. by destruct ip.
    - rewrite Hdig by done. rewrite take_app_length, drop_app_length.
      simpl. rewrite (run_all _ _ Hfp), firstn_all, skipn_all.
      by destruct (ip ++ fp). }
  destruct (parse_decimal false g) as [f|] eqn:Hparse.
  - (* accepted: find the decomposition *)
    unfold parse_decimal in Hparse.
    destruct (run_prefix is_digit g) as [Hip Hstop].
    set (ip := take (run is_digit g) g) in *.
    destruct (drop (run is_digit g) g) as [|c t] eqn:Hdrop.
    + assert (Hgip : g = ip).
      { rewrite <- (take_drop (run is_digit g) g), Hdrop. by rewrite app_nil_r. }
      rewrite app_nil_r in Hparse.
      destruct ip as [|a ip'] eqn:Hipeq; [done|]. rewrite <- Hipeq in *.
      simpl in Hparse. injection Hparse as <-.
      split; exists ip, []; rewrite ?app_nil_r; repeat split; auto.
      rewrite Hipeq. done.
    + assert (Hgsplit : g = ip ++ c :: t).
      { by rewrite <- (take_drop (run is_digit g) g), Hdrop. }
      assert (Hc : c = "."%char).
      { assert (Hcin : in_class DigitDot c = true).
        { rewrite Hgsplit, forallb_app in Hg. simpl in Hg.
          by apply andb_true_iff in Hg as [_ [? _]%andb_true_iff]. }
        by apply digit_dot_char. }
      subst c. simpl in Hparse.
      destruct (run_prefix is_digit t) as [Hfp Hstop'].
      set (fp := take (run is_digit t) t) in *.
      destruct (ip ++ fp) as [|a ds] eqn:Hds; [done|].
      destruct (drop (run is_digit t) t) as [|c' t'] eqn:Hdrop'.
      * assert (Htfp : t = fp).
        { rewrite <- (take_drop (run is_digit t) t), Hdrop'. by rewrite app_nil_r. }
        injection Hparse as <-.
        split; exists ip, fp; rewrite ?Hds; repeat split; auto; try by rewrite Htfp at 1; auto.
        all: right; by rewrite <- Htfp.
      * exfalso.
        assert (Hc' : in_class DigitDot c' = true).
        { rewrite Hgsplit, forallb_app in Hg. simpl in Hg.
          apply andb_true_iff in Hg as [_ Ht].
          rewrite <- (take_drop (run is_digit t) t), Hdrop', forallb_app in Ht.
          simpl in Ht.
          by apply andb_true_iff in Ht as [_ [? _]%andb_true_iff]. }
        destruct (digit_dot_char c' Hc') as (_ & _ & _ & _ & _ & _ & _ & _ & He & HE & _).
        rewrite He, HE in Hparse. done.
  - intros (ip & fp & Hip & Hfp & Hne & Hshape).
    specialize (Hnot ip fp Hip Hfp Hshape).
    by destruct (ip ++ fp).
Qed.

Lemma remove_underscores_digits prev g :
  Ascii.eqb prev "_" = false -> forallb is_digit g = true ->
  remove_underscores prev g = Some g.
Proof.
  revert prev. induction g as [|c g IH]; intros prev Hprev; cbn [remove_underscores forallb].
  - by rewrite Hprev.
  - intros [Hc Hg]%andb_true_iff.
    destruct (digit_dot_char c (digit_is_digit_dot c Hc)) as (_ & _ & _ & Hu & _).
    rewrite Hu, Hprev. cbn [andb]. by rewrite IH.
Qed.

Lemma int_of_digits g :
  g <> [] -> forallb is_digit g = true ->
  int_of_string (text_of g) =
  if (int_max_str_digits <? length g)%nat then Raise ValueError
  else Return (digits_value g).
Proof.
  intros Hne Hg. unfold int_of_string. rewrite chars_text_of.
  assert (Hdd : forallb (in_class DigitDot) g = true).
  { eapply forallb_impl; [|exact Hg]. apply digit_is_digit_dot. }
  rewrite strip_by_id.
  2:{ eapply forallb_impl; [|exact Hdd]. intros x Hx.
      by destruct (digit_dot_char x Hx) as (-> & _). }
  destruct g as [|a g]; [done|].
  pose proof Hg as Hg'. cbn [forallb] in Hg'.
  apply andb_true_iff in Hg' as [Ha _].
  destruct (digit_dot_char a (digit_is_digit_dot a Ha)) as (_ & _ & _ & _ & Hm & Hp & _).
  unfold take_sign. rewrite Hm, Hp, Ha. cbn [negb].
  rewrite remove_underscores_digits by done.
  by rewrite Hg.
Qed.

Lemma float_of_digits g :
  g <> [] -> forallb is_digit g = true ->
  float_of_string (text_of g) =
  Return (decimal_to_float false (digits_value g) 0).
Proof.
  intros Hne Hg.
  rewrite float_of_token; [|done|].
  2:{ eapply forallb_impl; [|exact Hg]. apply digit_is_digit_dot. }
  unfold parse_decimal.
  rewrite (run_all _ _ Hg), firstn_all, skipn_all. cbn zeta iota.
  rewrite app_nil_r. by destruct g.
Qed.

(** ** What the patterns capture *)

Lemma lang_cap_capture r w g :
  lang_cap r w (Some g) -> exists n, In (Group n) r /\ lang_node n g.
Proof.
  revert w. induction r as [|n r IH]; simpl; intros w.
  - by intros [_ ?].
  - intros (w1 & w2 & g' & _ & Hn & Hr & Hg).
    destruct n as [| | | |n']; simpl in Hg;
      try (subst g'; destruct (IH _ Hr) as (m & ? & ?); by eauto).
    injection Hg as ->. exists n'. split; [by left|done].
Qed.

Lemma search_group1_capture r s g :
  search_group1 r s = Some g -> exists n, In (Group n) r /\ lang_node n g.
Proof.
  intros (pre & w & _ & Hcap & _)%search_group1_some.
  by eapply lang_cap_capture.
Qed.

Lemma captured_decimal r s g :
  r = limit_re \/ r = tp_re \/ r = sl_re ->
  search_group1 r s = Some g ->
  g <> [] /\ forallb (in_class DigitDot) g = true.
Proof.
  intros Hr (n & Hin & Hn)%search_group1_capture.
  assert (n = Rep 1 DigitDot) as ->.
  { destruct Hr as [-> | [-> | ->] ]; simpl in Hin;
      repeat (destruct Hin as [Hin|Hin]; [congruence|]); done. }
  destruct Hn as [Hlen Hall]. split; [|done].
  intros ->. simpl in Hlen. lia.
Qed.

Lemma captured_digits r s g :
  r = leverage_re \/ r = risk_re ->
  search_group1 r s = Some g ->
  g <> [] /\ forallb is_digit g = true.
Proof.
  intros Hr (n & Hin & Hn)%search_group1_capture.
  assert (n = Rep 1 Digit) as ->.
  { destruct Hr as [-> | ->]; simpl in Hin;
      repeat (destruct Hin as [Hin|Hin]; [congruence|]); done. }
  destruct Hn as [Hlen Hall]. split; [|done].
  intros ->. simpl in Hlen. lia.
Qed.

(** [float] on a captured token of digits and points. *)
Lemma float_of_captured r s g :
  r = limit_re \/ r = tp_re \/ r = sl_re ->
  search_group1 r s = Some g ->
  (decimal_token g /\
   exists f, float_of_string (text_of g) = Return f /\ decimal_value g f) \/
  (~ decimal_token g /\ float_of_string (text_of g) = Raise ValueError).
Proof.
  intros Hr Hs. destruct (captured_decimal r s g Hr Hs) as [Hne Hg].
  rewrite (float_of_token g Hne Hg).
  pose proof (parse_decimal_token g Hg) as Hp.
  destruct (parse_decimal false g) as [f|].
  - left. destruct Hp. eauto.
  - by right.
Qed.





(** ** Direction and symbol *)


Lemma lang_symbol w :
  lang symbol_re w <->
  exists tok, tok <> [] /\ forallb (in_class UpperDigit) tok = true /\
              w = tok ++ chars "/USDT".
Proof.
  unfold symbol_re. cbn [lang lang_node]. split.
  - intros (w1 & w2 & -> & [Hlen Hall] & w3 & w4 & -> & -> & ->).
    exists w1. rewrite app_nil_r. repeat split; auto.
    intros ->. simpl in Hlen. lia.
  - intros (tok & Hne & Hall & ->). exists tok, (chars "/USDT").
    repeat split; auto.
    + destruct tok; [done|]. simpl. lia.
    + by exists (chars "/USDT"), [].
Qed.




Lemma symbol_first s b :
  search_group1 symbol_re s = Some b -> first_symbol s (text_of b +:+ "USDT").
Proof.
  intros (pre & w & [post ->] & Hcap & Hfirst)%search_group1_some.
  unfold symbol_re in Hcap. cbn [lang_cap lang_node is_group] in Hcap.
  destruct Hcap as (w1 & w2 & g' & -> & [Hlen Hall] &
                    (w3 & w4 & g'' & -> & -> & [-> _] & _) & [= ->]).
  rewrite app_nil_r in *.
  exists pre, w1, post.
  split; [intros ->; simpl in Hlen; lia|].
  split; [done|].
  split; [by rewrite <- app_assoc|].
  split; [done|].
  intros pre' tok' post' Hne Hall' Hs.
  apply (Hfirst pre' (tok' ++ chars "/USDT") post').
  - rewrite Hs. by rewrite <- !app_assoc.
  - apply lang_symbol. eauto.
Qed.


(** ** The outcome of a parse *)



(** The fields of a parsed signal, one by one. *)
Lemma parse_signal_some text sg :
  parse_signal text = Return (Some sg) <->
  exists d b,
    search_group1 direction_re (clean text) = Some d /\
    search_group1 symbol_re (clean text) = Some b /\
    direction sg = text_of d /\
    symbol sg = text_of b +:+ "USDT" /\
    entry_value (clean text) = Return (order_type sg, entry_price sg) /\
    field_value leverage_re int_of_string default_leverage (clean text)
      = Return (leverage sg) /\
    field_value tp_re float_of_string fzero (clean text) = Return (take_profit sg) /\
    field_value sl_re float_of_string fzero (clean text) = Return (stop_loss sg) /\
    field_value risk_re float_of_string default_risk (clean text)
      = Return (risk_percentage sg).
Proof.
  unfold parse_signal. rewrite parse_signal_body_eq. cbv zeta.
  destruct (search_group1 direction_re (clean text)) as [d|].
  2:{ split; [done|]. by intros (? & ? & ? & _). }
  destruct (search_group1 symbol_re (clean text)) as [b|].
  2:{ split; [done|]. by intros (? & ? & _ & ? & _). }
  destruct (entry_value (clean text)) as [[ot ep]|].
  2:{ split; [done|]. by intros (? & ? & _ & _ & _ & _ & ? & _). }
  destruct (field_value leverage_re _ _ _) as [lev|].
  2:{ split; [done|]. by intros (? & ? & _ & _ & _ & _ & _ & ? & _). }
  destruct (field_value tp_re _ _ _) as [tp|].
  2:{ split; [done|]. by intros (? & ? & _ & _ & _ & _ & _ & _ & ? & _). }
  destruct (field_value sl_re _ _ _) as [sl|].
  2:{ split; [done|]. by intros (? & ? & _ & _ & _ & _ & _ & _ & _ & ? & _). }
  destruct (field_value risk_re _ _ _) as [rk|].
  2:{ split; [done|]. by intros (? & ? & _ & _ & _ & _ & _ & _ & _ & _ & ?). }
  simpl. split.
  - intros [= <-]. exists d, b. done.
  - intros (d' & b' & [= <-] & [= <-] & Hd & Hsym & [= Hot Hep] & [= Hlev] & [= Htp]
            & [= Hsl] & [= Hrk]).
    destruct sg. simpl in *. by subst.
Qed.



(** ** The token a pattern captures *)





(** ** Keywords without a number *)




(** ** The sign of a parsed decimal *)

Lemma shr_1_nonneg mrs : (0 <= shr_m mrs)%Z -> (0 <= shr_m (shr_1 mrs))%Z.
Proof. destruct mrs as [[|[p|p|]|p] r s]; simpl; lia. Qed.

Lemma iter_pos_inv {A} (P : A -> Prop) (f : A -> A) :
  (forall x, P x -> P (f x)) -> forall p x, P x -> P (SpecFloat.iter_pos f p x).
Proof.
  intros Hf. induction p as [p IH|p IH|]; simpl; intros x Hx; auto.
Qed.

Lemma shr_fexp_nonneg m e l :
  (0 <= m)%Z -> (0 <= shr_m (fst (shr_fexp prec emax m e l)))%Z.
Proof.
  intros Hm. unfold shr_fexp, shr.
  assert (0 <= shr_m (shr_record_of_loc m l))%Z by (by destruct l as [|[]]).
  destruct (fexp prec emax (Zdigits2 m + e) - e)%Z; simpl; auto.
  by apply (iter_pos_inv (fun x => 0 <= shr_m x)%Z); [apply shr_1_nonneg|].
Qed.

Lemma binary_round_aux_nonneg mx ex lx :
  (0 <= mx)%Z -> is_nonneg (binary_round_aux prec emax false mx ex lx) = true.
Proof.
  intros Hm. unfold binary_round_aux.
  pose proof (shr_fexp_nonneg mx ex lx Hm) as H1.
  destruct (shr_fexp prec emax mx ex lx) as [mrs' e']. cbn [fst] in H1.
  assert (H2 : (0 <= round_nearest_even (shr_m mrs') (loc_of_shr_record mrs'))%Z).
  { unfold round_nearest_even.
    destruct (loc_of_shr_record mrs') as [|[]]; try destruct (Z.even _); lia. }
  pose proof (shr_fexp_nonneg _ e' loc_Exact H2) as H3.
  destruct (shr_fexp prec emax _ e' loc_Exact) as [mrs'' e'']. cbn [fst] in H3.
  destruct (shr_m mrs'') as [|m|m]; [done| |lia].
  by destruct (e'' <=? emax - prec)%Z.
Qed.

Lemma decimal_to_float_nonneg n e :
  is_nonneg (decimal_to_float false n e) = true.
Proof.
  unfold decimal_to_float. destruct n as [|m|m]; [done| |done].
  destruct (0 <=? e)%Z.
  - unfold binary_round.
    destruct (shl_align _ _ _) as [mz ez]. by apply binary_round_aux_nonneg.
  - unfold SFdiv, SFdiv_core_binary.
    set (m' := match (_ - _ - _)%Z with Z0 => _ | Zpos _ => _ | Zneg _ => _ end).
    assert (Hm' : (0 <= m')%Z).
    { subst m'. destruct (_ - _ - _)%Z; try lia. by apply Z.shiftl_nonneg. }
    pose proof (Z.div_pos m' (Z.pos (Z.to_pos (10 ^ (- e)))) Hm' ltac:(lia)) as Hq.
    unfold Z.div in Hq.
    destruct (Z.div_eucl m' _) as [q r]. cbn [fst] in Hq.
    by apply binary_round_aux_nonneg.
Qed.

Lemma decimal_value_nonneg g f : decimal_value g f -> is_nonneg f = true.
Proof.
  intros (ip & fp & _ & _ & _ & ->). apply decimal_to_float_nonneg.
Qed.

(** ** Mandatory fields *)




(** ** Order type and entry price *)




(** ** Optional fields *)










(** ** No exception escapes *)

(** C6.  Both entry points return: [parse_signal] a signal or [None],
    which is [None] when its body raised; [place_order] a result
    dictionary, which is [{'success': False, 'error': str(e)}] when its
    body raised [e]. *)
Theorem entry_points_return :
  (forall text,
      exists r, parse_signal text = Return r /\
                (forall e, parse_signal_body text = Raise e -> r = None)) /\
  (forall session signal lev risk,
      exists r st,
        run_place_order session signal lev risk = (Return r, st) /\
        (forall e st',
            place_order_body session lev risk (mkState signal []) = (Raise e, st') ->
            r = Failed e /\ st = st')).
Proof.
  split.
  - intros text. unfold parse_signal.
    destruct (parse_signal_body text) as [r|e]; simpl.
    + exists r. split; [done|]. discriminate.
    + exists None. done.
  - intros session signal lev risk.
    destruct (place_order_run session signal lev risk) as (r & st & Hrun & _).
    exists r, st. split; [done|].
    intros e st' Hbody. unfold run_place_order, place_order, try_catch in Hrun.
    rewrite Hbody in Hrun. unfold ret in Hrun. by injection Hrun as <- <-.
Qed.

(* ===================================================================== *)
(** * Examples *)
(* ===================================================================== *)

(** The signal of the specification's end-to-end example. *)
Example parse_full_signal :
  parse_signal "LONG
BTC/USDT
LEVERAGE: 20X
TP: 52000
SL: 48000
USE 3% OF CAPITAL"
  = Return (Some {| direction := "LONG"; symbol := "BTCUSDT";
                    order_type := "MARKET"; entry_price := None;
                    take_profit := float_lit "52000";
                    stop_loss := float_lit "48000";
                    leverage := 20;
                    risk_percentage := float_lit "3.0" |}).
Proof. vm_compute. reflexivity. Qed.

(** Fields in another order, in lower case, with commentary between. *)
Example parse_any_order :
  parse_signal "sl: 48000 entry now! use 3% of capital eth/usdt limit order 2500.75 short"
  = Return (Some {| direction := "SHORT"; symbol := "ETHUSDT";
                    order_type := "LIMIT";
                    entry_price := Some (float_lit "2500.75");
                    take_profit := fzero;
                    stop_loss := float_lit "48000";
                    leverage := 10;
                    risk_percentage := float_lit "3" |}).
Proof. vm_compute. reflexivity. Qed.

(** The first LONG or SHORT wins. *)
Example parse_first_direction :
  option_map direction
    (match parse_signal "SHORT then LONG BTC/USDT" with
     | Return r => r
     | Raise _ => None
     end) = Some "SHORT".
Proof. vm_compute. reflexivity. Qed.

(** A pattern that fails at one keyword matches at a later one. *)
Example search_later_occurrence :
  search_group1 risk_re (chars "USE 3.5% OF CAPITAL, USE 7% OF CAPITAL")
  = Some (chars "7").
Proof. vm_compute. reflexivity. Qed.

(** The binary64 values of some decimals. *)
Example float_of_tenth :
  float_of_string "0.1" = Return (S754_finite false 7205759403792794 (-56)).
Proof. vm_compute. reflexivity. Qed.

Example float_of_price :
  float_of_string "45000.5" = Return (S754_finite false 6184821625716736 (-37)).
Proof. vm_compute. reflexivity. Qed.

(** [round] rounds the exact binary value, ties to even. *)
Example round_tie_to_even :
  py_round (float_lit "0.0078125") 6 = float_lit "0.007812".
Proof. vm_compute. reflexivity. Qed.

Example round_below_half :
  py_round (float_lit "2.6750005") 6 = float_lit "2.675".
Proof. vm_compute. reflexivity. Qed.

(** A MARKET order on the sample exchange is priced at the last trade and
    submitted after the leverage, the balance and the ticker calls. *)
Example market_order_run :
  let signal := new_signal "LONG" "BTCUSDT" "MARKET" in
  let signal' := set_entry_price signal (Some (float_lit "50000")) in
  let params := build_order_params signal' (float_lit "0.01") in
  snd (run_place_order (sample_session (sample_wallet "1000") "50000")
         signal 10 (float_lit "5"))
  = mkState signal'
      [SetLeverage "BTCUSDT" 10; GetWalletBalance; GetTickers "BTCUSDT";
       PlaceOrder params].
Proof. vm_compute. reflexivity. Qed.

(** A LIMIT signal without a price cannot be sized: the division raises,
    and nothing is submitted. *)
Example limit_without_price_run :
  run_place_order (sample_session (sample_wallet "1000") "50000")
    (new_signal "LONG" "BTCUSDT" "LIMIT") 10 (float_lit "5")
  = (Return (Failed TypeError),
     mkState (new_signal "LONG" "BTCUSDT" "LIMIT")
       [SetLeverage "BTCUSDT" 10; GetWalletBalance]).
Proof. vm_compute. reflexivity. Qed.

(** A word after TP: leaves the take profit at its default; the other
    fields are read as usual. *)
Example parse_word_after_keyword :
  parse_signal "LONG BTC/USDT TP: ABC SL: 48000"
  = Return (Some {| direction := "LONG"; symbol := "BTCUSDT";
                    order_type := "MARKET"; entry_price := None;
                    take_profit := fzero;
                    stop_loss := float_lit "48000";
                    leverage := 10;
                    risk_percentage := float_lit "5.0" |}).
Proof. vm_compute. reflexivity. Qed.

(** Digits followed by letters are read up to the first letter. *)
Example parse_digits_then_letters :
  option_map take_profit
    (match parse_signal "LONG BTC/USDT TP: 12ABC" with
     | Return r => r
     | Raise _ => None
     end) = Some (float_lit "12").
Proof. vm_compute. reflexivity. Qed.

(* ===================================================================== *)
(** * Further properties of the parser and the order sizer *)
(* ===================================================================== *)

Lemma digit_value_bounds c : is_digit c = true -> (0 <= digit_value c <= 9)%Z.
Proof.
  destruct c as [[] [] [] [] [] [] [] []]; vm_compute; intros H;
    try discriminate H; split; discriminate.
Qed.

Lemma digits_value_app ds c :
  digits_value (ds ++ [c]) = (10 * digits_value ds + digit_value c)%Z.
Proof. unfold digits_value. by rewrite fold_left_app. Qed.

Lemma digits_value_nonneg ds :
  forallb is_digit ds = true -> (0 <= digits_value ds)%Z.
Proof.
  induction ds as [|c ds IH] using rev_ind; [done|].
  rewrite forallb_app, digits_value_app. cbn [forallb].
  intros [Hds [Hc _]%andb_true_iff]%andb_true_iff.
  pose proof (digit_value_bounds c Hc). specialize (IH Hds). lia.
Qed.

Lemma float_field_nonneg r s v :
  r = tp_re \/ r = sl_re ->
  field_value r float_of_string fzero s = Return v -> is_nonneg v = true.
Proof.
  intros Hr. unfold field_value.
  destruct (search_group1 r s) as [g|] eqn:Hs; [|by intros [= <-]].
  destruct (float_of_captured r s g) as [(_ & f & Hf & Hval)|[_ Hf]];
    [tauto|done| |]; rewrite Hf; [|done].
  intros [= <-]. by eapply decimal_value_nonneg.
Qed.

(** X1.  Every signal [parse_signal] returns is well formed: its symbol is
    a non-empty token of capitals and digits followed by USDT, its
    leverage is zero or more, and its take profit, stop loss and risk
    percentage are numbers that are zero or more (never NaN, never
    negative). *)
Theorem parsed_signal_well_formed text sg :
  parse_signal text = Return (Some sg) ->
  (exists tok, tok <> [] /\ forallb (in_class UpperDigit) tok = true /\
               symbol sg = text_of tok +:+ "USDT") /\
  (0 <= leverage sg)%Z /\
  is_nonneg (take_profit sg) = true /\
  is_nonneg (stop_loss sg) = true /\
  is_nonneg (risk_percentage sg) = true.
Proof.
  intros (d & b & _ & Hb & _ & Hsym & _ & Hlev & Htp & Hsl & Hrk)%parse_signal_some.
  split; [|split; [|split; [|split]]].
  - apply symbol_first in Hb as (pre & tok & post & Hne & Hall & _ & Heq & _).
    exists tok. by rewrite Hsym.
  - unfold field_value in Hlev.
    destruct (search_group1 leverage_re (clean text)) as [g|] eqn:Hs.
    + destruct (captured_digits leverage_re _ g (or_introl eq_refl) Hs) as [Hne Hg].
      rewrite (int_of_digits g Hne Hg) in Hlev.
      destruct (_ <? _)%nat; [done|]. injection Hlev as <-.
      by apply digits_value_nonneg.
    + by injection Hlev as <-.
  - eapply float_field_nonneg; [|exact Htp]. by left.
  - eapply float_field_nonneg; [|exact Hsl]. by right.
  - unfold field_value in Hrk.
    destruct (search_group1 risk_re (clean text)) as [g|] eqn:Hs.
    + destruct (captured_digits risk_re _ g (or_intror eq_refl) Hs) as [Hne Hg].
      rewrite (float_of_digits g Hne Hg) in Hrk. injection Hrk as <-.
      apply decimal_to_float_nonneg.
    + by injection Hrk as <-.
Qed.

Lemma parsed_signal_well_formed_witness :
  exists sg,
    parse_signal "SHORT 1000PEPE/USDT LEVERAGE: 0 TP: .5" = Return (Some sg) /\
    (0 <= leverage sg)%Z /\ is_nonneg (take_profit sg) = true.
Proof.
  eexists. split; [vm_compute; reflexivity|].
  destruct (parsed_signal_well_formed "SHORT 1000PEPE/USDT LEVERAGE: 0 TP: .5" _
              ltac:(vm_compute; reflexivity)) as (_ & Hl & Ht & _).
  by split.
Defined.

Lemma upper_char_space c : is_space c = true -> upper_char c = c.
Proof.
  destruct c as [[] [] [] [] [] [] [] []]; vm_compute; done.
Qed.

Lemma upper_spaces ws : forallb is_space ws = true -> upper ws = ws.
Proof.
  induction ws as [|c ws IH]; [done|]. cbn [forallb upper map].
  intros [Hc Hws]%andb_true_iff.
  rewrite (upper_char_space c Hc). f_equal. by apply IH.
Qed.

Lemma lstrip_by_app p u w :
  lstrip_by p (u ++ w) =
  match lstrip_by p u with
  | [] => lstrip_by p w
  | l => l ++ w
  end.
Proof.
  induction u as [|c u IH]; [done|]. cbn [app lstrip_by].
  by destruct (p c).
Qed.

Lemma lstrip_by_spaces p ws : forallb p ws = true -> lstrip_by p ws = [].
Proof.
  induction ws as [|c ws IH]; [done|]. cbn [forallb lstrip_by].
  intros [-> Hws]%andb_true_iff. by apply IH.
Qed.

Lemma strip_by_margin p ws1 u ws2 :
  forallb p ws1 = true -> forallb p ws2 = true ->
  strip_by p (ws1 ++ u ++ ws2) = strip_by p u.
Proof.
  intros H1 H2. unfold strip_by.
  rewrite (lstrip_by_app p ws1), (lstrip_by_spaces p ws1 H1).
  rewrite (lstrip_by_app p u).
  destruct (lstrip_by p u) as [|c l] eqn:Hu.
  - by rewrite (lstrip_by_spaces p ws2 H2).
  - rewrite rev_app_distr, lstrip_by_app, (lstrip_by_spaces p (rev ws2)); [done|].
    by apply forallb_rev.
Qed.

Lemma parse_signal_clean a b : clean a = clean b -> parse_signal a = parse_signal b.
Proof.
  intros H. unfold parse_signal, parse_signal_body. by rewrite H.
Qed.

(** X2.  [parse_signal] does not see letter case nor white space around
    the text: a text that differs from another only in the case of its
    letters and in leading and trailing white space parses to the same
    result. *)
Theorem parse_ignores_case_and_margin text text' ws1 ws2 :
  upper (chars text') = upper (chars text) ->
  forallb is_space ws1 = true -> forallb is_space ws2 = true ->
  parse_signal (text_of (ws1 ++ chars text' ++ ws2)) = parse_signal text.
Proof.
  intros Hcase H1 H2. apply parse_signal_clean. unfold clean.
  rewrite chars_text_of. unfold upper at 1. rewrite !map_app.
  fold (upper ws1) (upper (chars text')) (upper ws2).
  rewrite (upper_spaces ws1 H1), (upper_spaces ws2 H2), Hcase.
  by apply strip_by_margin.
Qed.

Lemma parse_ignores_case_and_margin_witness :
  parse_signal (text_of (chars "  " ++ chars "Long btc/usdt tp: 52000" ++ chars "
"))
  = parse_signal "LONG BTC/USDT TP: 52000".
Proof.
  apply parse_ignores_case_and_margin; reflexivity.
Defined.

(** ** The order sizer *)

Lemma build_order_params_fixed sg qty :
  build_order_params sg qty !! "category" = Some (Str "linear") /\
  build_order_params sg qty !! "symbol" = Some (Str (symbol sg)) /\
  build_order_params sg qty !! "side" =
    Some (Str (if String.eqb (direction sg) "LONG" then "Buy" else "Sell")) /\
  build_order_params sg qty !! "orderType" =
    Some (Str (if String.eqb (order_type sg) "MARKET" then "Market" else "Limit")) /\
  build_order_params sg qty !! "timeInForce" = Some (Str "GTC").
Proof.
  unfold build_order_params.
  destruct (gt_zero (stop_loss sg)), (gt_zero (take_profit sg)),
    (String.eqb (order_type sg) "LIMIT");
    repeat split;
    repeat (rewrite lookup_insert_ne by done); by rewrite lookup_insert_eq.
Qed.

Lemma build_order_params_price sg qty :
  build_order_params sg qty !! "price" =
  if String.eqb (order_type sg) "LIMIT"
  then Some (match entry_price sg with
             | Some p => StrOfFloat p
             | None => Str "None"
             end)
  else None.
Proof.
  unfold build_order_params.
  destruct (gt_zero (stop_loss sg)), (gt_zero (take_profit sg)),
    (String.eqb (order_type sg) "LIMIT");
    repeat (rewrite lookup_insert_ne by done); try by rewrite lookup_insert_eq.
  all: by rewrite lookup_empty.
Qed.

Lemma order_qty_price ramt lev entry qty :
  order_qty ramt lev entry = Return qty ->
  exists price, entry = Some price /\ is_zero price = false.
Proof.
  unfold order_qty, fdiv.
  destruct (float_of_int lev) as [levf|]; simpl; [|discriminate].
  destruct entry as [price|]; simpl; [|discriminate].
  destruct (is_zero price) eqn:Hz; simpl; [discriminate|]. eauto.
Qed.

(** X3.  Every order request [place_order] sends is for the linear
    category and the signal's symbol, good till cancelled, buys for LONG
    and sells for any other direction, is a Market order for MARKET and a
    Limit order otherwise, and has a price exactly for LIMIT, which is the
    signal's entry price. *)
Theorem order_request_fields session signal lev risk params :
  In (PlaceOrder params) (st_calls (snd (run_place_order session signal lev risk))) ->
  params !! "category" = Some (Str "linear") /\
  params !! "symbol" = Some (Str (symbol signal)) /\
  params !! "side" =
    Some (Str (if String.eqb (direction signal) "LONG" then "Buy" else "Sell")) /\
  params !! "orderType" =
    Some (Str (if String.eqb (order_type signal) "MARKET" then "Market" else "Limit")) /\
  params !! "timeInForce" = Some (Str "GTC") /\
  (order_type signal = "LIMIT" ->
   exists p, entry_price signal = Some p /\ params !! "price" = Some (StrOfFloat p)) /\
  (order_type signal <> "LIMIT" -> params !! "price" = None).
Proof.
  intros Hin.
  destruct (place_order_run session signal lev risk) as (r & st & Hrun & Horder).
  rewrite Hrun in Hin. cbn [snd] in Hin.
  destruct (order_run_orders _ _ _ _ _ _ _ Horder Hin)
    as (bal & sg & calls & qty & _ & Hp & Hq & -> & _).
  destruct (build_order_params_fixed sg qty) as (Hc & Hs & Hside & Hot & Ht).
  pose proof (priced_frame _ _ _ _ _ Hp) as (Hd & Hsym & Hty & _).
  rewrite Hc, Hs, Hside, Hot, Ht, Hd, Hsym, Hty, build_order_params_price, Hty.
  repeat (split; [done|]). split.
  - intros Hl. rewrite Hl. cbn [String.eqb Ascii.eqb Bool.eqb].
    destruct Hp as [Hm|ticker p Hm _ _]; [|congruence].
    apply order_qty_price in Hq as (price & -> & _). eauto.
  - intros Hl. by destruct (String.eqb_spec (order_type signal) "LIMIT").
Qed.

Lemma order_request_fields_witness :
  let signal :=
    set_entry_price (new_signal "SHORT" "ETHUSDT" "LIMIT") (Some (float_lit "2500")) in
  let params := build_order_params signal (float_lit "0.2") in
  params !! "side" = Some (Str "Sell") /\
  params !! "orderType" = Some (Str "Limit") /\
  params !! "price" = Some (StrOfFloat (float_lit "2500")).
Proof.
  intros signal params.
  destruct (order_request_fields (sample_session (sample_wallet "1000") "50000")
              signal 10 (float_lit "5") params)
    as (_ & _ & Hside & Hot & _ & Hprice & _).
  - vm_compute. right. right. left. reflexivity.
  - split; [exact Hside|]. split; [exact Hot|].
    destruct (Hprice eq_refl) as (p & Hp & ->). by injection Hp as <-.
Defined.

(** X4.  For a leverage that [str] prints (at most 4300 digits), the
    calls of one [place_order] are, in this order: the leverage of the
    signal's symbol set to the user's leverage, the wallet balance, the
    ticker of the symbol (only for MARKET, and always before a MARKET
    order is sent), and at most one order, the last call. *)
Theorem place_order_call_sequence session signal lev risk shown :
  str_of_int lev = Return shown ->
  exists tickers orders,
    st_calls (snd (run_place_order session signal lev risk)) =
      [SetLeverage (symbol signal) lev; GetWalletBalance] ++ tickers ++ orders /\
    (tickers = [] \/
     order_type signal = "MARKET" /\ tickers = [GetTickers (symbol signal)]) /\
    (orders = [] \/ exists params, orders = [PlaceOrder params]) /\
    (order_type signal = "MARKET" -> orders <> [] -> tickers <> []).
Proof.
  intros _.
  destruct (place_order_run session signal lev risk) as (r & st & Hrun & Horder).
  rewrite Hrun. cbn [snd].
  destruct Horder as [e Hb|bal e Hb Hm|bal sg calls e Hb Hp Hq|bal sg calls qty Hb Hp Hq];
    cbn [st_calls].
  - exists [], []. rewrite !app_nil_r. repeat split; auto.
  - exists [GetTickers (symbol signal)], []. rewrite !app_nil_r.
    repeat split; auto.
  - destruct Hp as [Hm|ticker p Hm Ht Hl].
    + exists [], []. rewrite !app_nil_r. repeat split; auto.
    + exists [GetTickers (symbol signal)], []. rewrite !app_nil_r.
      repeat split; auto.
  - destruct Hp as [Hm|ticker p Hm Ht Hl].
    + exists [], [PlaceOrder (build_order_params signal qty)].
      split; [done|]. split; [by left|]. split; [eauto|]. done.
    + exists [GetTickers (symbol signal)],
             [PlaceOrder (build_order_params (set_entry_price signal (Some p)) qty)].
      split; [unfold first_calls; by rewrite <- !app_assoc|].
      split; [by right|]. split; [eauto|]. done.
Qed.

(** A MARKET order on the sample exchange: four calls. *)
Lemma place_order_call_sequence_witness :
  let signal := new_signal "LONG" "BTCUSDT" "MARKET" in
  exists tickers orders,
    st_calls (snd (run_place_order (sample_session (sample_wallet "1000") "50000")
                     signal 10 (float_lit "5"))) =
      [SetLeverage "BTCUSDT" 10; GetWalletBalance] ++ tickers ++ orders /\
    (orders = [] \/ exists params, orders = [PlaceOrder params]).
Proof.
  intros signal.
  destruct (place_order_call_sequence
              (sample_session (sample_wallet "1000") "50000") signal 10
              (float_lit "5") "10")
    as (tickers & orders & Hcalls & _ & Horders & _).
  - vm_compute. reflexivity.
  - exists tickers, orders. split; [exact Hcalls|exact Horders].
Defined.

Lemma unpriced_aborts session signal lev risk :
  order_type signal <> "MARKET" ->
  (forall p, entry_price signal = Some p -> is_zero p = true) ->
  exists e st,
    run_place_order session signal lev risk = (Return (Failed e), st) /\
    no_order_submitted (st_calls st) /\ st_signal st = signal.
Proof.
  intros Hm Hentry.
  destruct (place_order_run session signal lev risk) as (r & st & Hrun & Horder).
  rewrite Hrun.
  destruct Horder as [e Hb|bal e Hb Hm'|bal sg calls e Hb Hp Hq|bal sg calls qty Hb Hp Hq];
    try done.
  - by exists e, (mkState signal (first_calls signal lev)).
  - destruct Hp as [_|ticker p Hm' _ _]; [|done].
    by exists e, (mkState signal (first_calls signal lev)).
  - exfalso. destruct Hp as [_|ticker p Hm' _ _]; [|done].
    apply order_qty_price in Hq as (price & Hp & Hz).
    specialize (Hentry price Hp). congruence.
Qed.

(** X5.  A signal that is not MARKET and has no entry price, or a zero
    entry price, is never sent: [place_order] returns a failure, no order
    reaches the exchange and the signal is as it was. *)
Theorem unpriced_signal_never_submitted session signal lev risk :
  order_type signal <> "MARKET" ->
  (forall p, entry_price signal = Some p -> is_zero p = true) ->
  exists e st,
    run_place_order session signal lev risk = (Return (Failed e), st) /\
    no_order_submitted (st_calls st) /\ st_signal st = signal.
Proof. apply unpriced_aborts. Qed.

Lemma unpriced_signal_never_submitted_witness :
  exists e st,
    run_place_order (sample_session (sample_wallet "1000") "50000")
      (new_signal "LONG" "BTCUSDT" "LIMIT") 10 (float_lit "5")
      = (Return (Failed e), st) /\
    no_order_submitted (st_calls st) /\
    st_signal st = new_signal "LONG" "BTCUSDT" "LIMIT".
Proof.
  apply unpriced_signal_never_submitted; [discriminate|].
  intros p Hp. discriminate Hp.
Defined.




Section Tracking.

Variable f : TradingSignal -> TradingSignal.

Lemma tracks_ret {A} (v : A) : tracks f (ret v) (ret v).
Proof. by intros st. Qed.

Lemma tracks_raise {A} e : tracks f (@raise A e) (raise e).
Proof. by intros st. Qed.

Lemma tracks_lift {A} (o : outcome A) : tracks f (lift o) (lift o).
Proof. by intros st. Qed.

Lemma tracks_call session c : tracks f (call_session session c) (call_session session c).
Proof. by intros st. Qed.

Lemma tracks_bind {A B} (m1 m2 : M A) (k1 k2 : A -> M B) :
  tracks f m1 m2 -> (forall x, tracks f (k1 x) (k2 x)) ->
  tracks f (bind m1 k1) (bind m2 k2).
Proof.
  intros Hm Hk st. unfold bind. rewrite Hm.
  destruct (m2 st) as [[v|e] st']; cbn [fst snd]; [apply Hk|done].
Qed.

Lemma tracks_try {A} (m1 m2 : M A) (h1 h2 : exn -> M A) :
  tracks f m1 m2 -> (forall e, tracks f (h1 e) (h2 e)) ->
  tracks f (try_catch m1 h1) (try_catch m2 h2).
Proof.
  intros Hm Hh st. unfold try_catch. rewrite Hm.
  destruct (m2 st) as [[v|e] st']; cbn [fst snd]; [done|apply Hh].
Qed.

Lemma tracks_get_signal {A} (k1 k2 : TradingSignal -> M A) :
  (forall sg, tracks f (k1 (f sg)) (k2 sg)) ->
  tracks f (bind get_signal k1) (bind get_signal k2).
Proof. intros Hk st. unfold bind, get_signal. cbn [st_signal]. apply Hk. Qed.

Lemma tracks_update g :
  (forall sg, g (f sg) = f (g sg)) ->
  tracks f (update_signal g) (update_signal g).
Proof. intros Hg st. unfold update_signal. cbn. by rewrite Hg. Qed.

End Tracking.

Lemma place_order_tracks session lev risk l r :
  tracks (fun sg => set_risk_percentage (set_leverage_field sg l) r)
    (place_order session lev risk) (place_order session lev risk).
Proof.
  unfold place_order, place_order_body.
  apply tracks_try; [|intros; apply tracks_ret].
  apply tracks_get_signal. intros sg.
  apply tracks_bind.
  { unfold set_leverage. apply tracks_try; [|intros; apply tracks_ret].
    apply tracks_bind; [apply tracks_call|]. intros res.
    apply tracks_bind; [apply tracks_lift|]. intros rc. apply tracks_ret. }
  intros _. apply tracks_bind.
  { unfold get_account_balance. apply tracks_try; [apply tracks_call|].
    intros; apply tracks_ret. }
  intros balance. apply tracks_bind; [apply tracks_lift|]. intros bal.
  apply tracks_bind; [apply tracks_lift|]. intros ramt.
  apply tracks_bind.
  { unfold resolve_price. apply tracks_get_signal. intros sg'.
    cbn [order_type symbol set_risk_percentage set_leverage_field].
    destruct (String.eqb (order_type sg') "MARKET"); [|apply tracks_ret].
    apply tracks_bind; [apply tracks_call|]. intros ticker.
    apply tracks_bind; [apply tracks_lift|]. intros rc.
    destruct (negb (eq_zero rc)); [apply tracks_raise|].
    apply tracks_bind; [apply tracks_lift|]. intros p.
    by apply tracks_update. }
  intros _. apply tracks_get_signal. intros sg'.
  cbn [entry_price set_risk_percentage set_leverage_field].
  apply tracks_bind; [apply tracks_lift|]. intros qty.
  change (build_order_params (set_risk_percentage (set_leverage_field sg' l) r) qty)
    with (build_order_params sg' qty).
  cbv zeta.
  apply tracks_bind; [apply tracks_call|]. intros res.
  apply tracks_bind; [apply tracks_lift|]. intros rc. apply tracks_ret.
Qed.

(** X7.  [place_order] does not read the leverage and the risk percentage
    of the signal: with other values in these two fields the result and
    the calls are the same, and the signal afterwards differs in these two
    fields only.  The leverage and the risk it uses are its arguments. *)
Theorem place_order_ignores_signal_settings session signal lev risk l r :
  let other := set_risk_percentage (set_leverage_field signal l) r in
  let run := run_place_order session signal lev risk in
  run_place_order session other lev risk =
  (fst run,
   mkState (set_risk_percentage (set_leverage_field (st_signal (snd run)) l) r)
           (st_calls (snd run))).
Proof.
  cbv zeta. unfold run_place_order.
  apply (place_order_tracks session lev risk l r (mkState signal [])).
Qed.

Lemma bind_ext {A B} (m1 m2 : M A) (k1 k2 : A -> M B) st :
  m1 st = m2 st -> (forall x st', k1 x st' = k2 x st') ->
  bind m1 k1 st = bind m2 k2 st.
Proof.
  intros Hm Hk. unfold bind. rewrite Hm.
  destruct (m2 st) as [[v|e] st']; [apply Hk|done].
Qed.

Lemma bind_discard {A B} (m1 m2 : M A) (k1 k2 : M B) st st' b1 b2 :
  m1 st = (Return b1, st') -> m2 st = (Return b2, st') -> k1 st' = k2 st' ->
  bind m1 (fun _ => k1) st = bind m2 (fun _ => k2) st.
Proof. intros H1 H2 Hk. unfold bind. by rewrite H1, H2. Qed.

Lemma call_session_agree s1 s2 c st :
  agree_but_leverage s1 s2 -> (forall sym lev, c <> SetLeverage sym lev) ->
  call_session s1 c st = call_session s2 c st.
Proof. intros H Hc. unfold call_session. by rewrite (H _ _ Hc). Qed.

(** X8.  A failure of [set_leverage] is not fatal, and its answer is not
    used: on two exchanges that answer alike to every call but
    [set_leverage], [place_order] returns the same result, makes the same
    calls and leaves the same signal. *)
Theorem leverage_failure_not_fatal s1 s2 signal lev risk :
  agree_but_leverage s1 s2 ->
  run_place_order s1 signal lev risk = run_place_order s2 signal lev risk.
Proof.
  intros Hagree. unfold run_place_order, place_order, try_catch.
  cut (place_order_body s1 lev risk (mkState signal [])
       = place_order_body s2 lev risk (mkState signal [])); [by intros ->|].
  unfold place_order_body.
  apply bind_ext; [done|]. intros sg st.
  destruct (set_leverage_run s1 (symbol sg) lev st) as [b1 H1].
  destruct (set_leverage_run s2 (symbol sg) lev st) as [b2 H2].
  eapply bind_discard; [exact H1|exact H2|].
  apply bind_ext.
  { unfold get_account_balance, try_catch.
    by rewrite (call_session_agree s1 s2). }
  intros balance st1. apply bind_ext; [done|]. intros bal st2.
  apply bind_ext; [done|]. intros ramt st3.
  apply bind_ext.
  { unfold resolve_price. apply bind_ext; [done|]. intros sg' st4.
    destruct (String.eqb (order_type sg') "MARKET"); [|done].
    apply bind_ext; [by apply call_session_agree|]. done. }
  intros _ st4. apply bind_ext; [done|]. intros sg' st5.
  apply bind_ext; [done|]. intros qty st6. cbv zeta.
  apply bind_ext; [by apply call_session_agree|]. done.
Qed.

(** An exchange that refuses every [set_leverage], and one that accepts
    it. *)
Lemma leverage_failure_not_fatal_witness :
  let good := sample_session (sample_wallet "1000") "50000" in
  let bad : venue := fun h c =>
    match c with
    | SetLeverage _ _ => Raise (ClientError "leverage not modified")
    | _ => good h c
    end in
  run_place_order bad (new_signal "LONG" "BTCUSDT" "MARKET") 10 (float_lit "5")
  = run_place_order good (new_signal "LONG" "BTCUSDT" "MARKET") 10 (float_lit "5").
Proof.
  intros good bad. apply leverage_failure_not_fatal.
  intros h c Hc. destruct c; try reflexivity. by destruct (Hc sym lev).
Defined.

Lemma run_with_balance session signal lev risk bal :
  check_balance (balance_snapshot session signal lev) = Return bal ->
  run_place_order session signal lev risk =
  try_catch
    (do! resolve_price session in
     let! signal := get_signal in
     let! qty := lift (order_qty (risk_of risk bal) lev (entry_price signal)) in
     let order_params := build_order_params signal qty in
     let! result := call_session session (PlaceOrder order_params) in
     let! rc := lift (getitem result "retCode") in
     ret (Completed (eq_zero rc) result order_params))
    (fun e => ret (Failed e))
    (mkState signal (first_calls signal lev)).
Proof.
  intros Hbal. unfold run_place_order, place_order, place_order_body, try_catch.
  unfold bind at 1. unfold get_signal at 1. cbn [st_signal].
  unfold bind at 1.
  destruct (set_leverage_run session (symbol signal) lev (mkState signal []))
    as [b ->]. cbn [st_signal st_calls app].
  unfold bind at 1. rewrite get_account_balance_run. cbn [st_signal st_calls app].
  fold (balance_snapshot session signal lev). rewrite Hbal.
  unfold bind at 1, lift at 1. unfold bind at 1, lift at 1.
  rewrite risk_amount_returns. reflexivity.
Qed.

(** X9.  For a MARKET order and a leverage that [str] prints (at most
    4300 digits), when the ticker answers with a return code other than 0,
    [place_order] reports "Could not fetch ticker data"; nothing is
    submitted and the signal keeps the entry price it had. *)
Theorem ticker_failure_aborts session signal lev risk bal ticker rc shown :
  str_of_int lev = Return shown ->
  order_type signal = "MARKET" ->
  check_balance (balance_snapshot session signal lev) = Return bal ->
  ticker_response session signal lev = Return ticker ->
  getitem ticker "retCode" = Return rc ->
  eq_zero rc = false ->
  run_place_order session signal lev risk =
  (Return (Failed (Exception "Could not fetch ticker data")),
   mkState signal (first_calls signal lev ++ [GetTickers (symbol signal)])).
Proof.
  intros _ Hm Hbal Ht Hrc Hz. rewrite (run_with_balance _ _ _ _ _ Hbal).
  unfold try_catch, bind at 1, resolve_price.
  unfold bind at 1, get_signal at 1. cbn [st_signal]. rewrite Hm.
  cbn [String.eqb Ascii.eqb Bool.eqb].
  unfold bind at 1, call_session at 1. cbn [st_signal st_calls].
  unfold ticker_response in Ht. unfold first_calls. rewrite Ht.
  unfold bind at 1, lift at 1. rewrite Hrc, Hz. reflexivity.
Qed.

Lemma ticker_failure_aborts_witness :
  let session : venue := fun h c =>
    match c with
    | GetTickers _ => Return (JDict [("retCode", JInt 10001)])
    | _ => sample_session (sample_wallet "1000") "50000" h c
    end in
  let signal := new_signal "LONG" "BTCUSDT" "MARKET" in
  run_place_order session signal 10 (float_lit "5") =
  (Return (Failed (Exception "Could not fetch ticker data")),
   mkState signal (first_calls signal 10 ++ [GetTickers "BTCUSDT"])).
Proof.
  intros session signal.
  apply (ticker_failure_aborts session signal 10 (float_lit "5") (float_lit "1000")
           (JDict [("retCode", JInt 10001)]) (JInt 10001) "10");
    first [reflexivity | vm_compute; reflexivity].
Defined.

(** X10.  When [place_order] reports a result with a success flag, the
    order was sent, as the last call; the result carries the answer of the
    exchange to that call and the request sent; and the flag says whether
    the return code of the answer is 0. *)
Theorem completed_means_submitted session signal lev risk success result params st :
  run_place_order session signal lev risk
    = (Return (Completed success result params), st) ->
  exists calls rc,
    st_calls st = calls ++ [PlaceOrder params] /\
    no_order_submitted calls /\
    session calls (PlaceOrder params) = Return result /\
    getitem result "retCode" = Return rc /\
    success = eq_zero rc.
Proof.
  intros Hrun.
  destruct (place_order_run session signal lev risk) as (r & st' & Hrun' & Horder).
  rewrite Hrun in Hrun'. injection Hrun' as <- <-.
  inversion Horder as [| | |bal sg calls qty Hb Hp Hq Hrep Hst]; subst st.
  unfold report in Hrep.
  destruct (session calls _) as [res|] eqn:Hs; [|discriminate].
  destruct (getitem res "retCode") as [rc|] eqn:Hrc; [|discriminate].
  injection Hrep as Hsuccess Hres Hparams. subst success result params.
  exists calls, rc. cbn [st_calls]. repeat split; try done.
  by eapply priced_calls.
Qed.

Lemma completed_means_submitted_witness :
  exists calls rc params,
    st_calls (snd (run_place_order (sample_session (sample_wallet "1000") "50000")
                     (new_signal "LONG" "BTCUSDT" "MARKET") 10 (float_lit "5")))
      = calls ++ [PlaceOrder params] /\
    no_order_submitted calls /\ eq_zero rc = true.
Proof.
  destruct (run_place_order (sample_session (sample_wallet "1000") "50000")
              (new_signal "LONG" "BTCUSDT" "MARKET") 10 (float_lit "5"))
    as [[[success result params|]|] st] eqn:Hrun;
    try (vm_compute in Hrun; discriminate).
  destruct (completed_means_submitted _ _ _ _ _ _ _ _ Hrun)
    as (calls & rc & Hcalls & Hno & _ & _ & Hs).
  exists calls, rc, params. split; [exact Hcalls|]. split; [exact Hno|].
  vm_compute in Hrun. injection Hrun as Hsuccess _ _ _. congruence.
Defined.

(* ===================================================================== *)
(** * Properties of the configuration manager and the chat handlers *)
(* ===================================================================== *)

(** ** Numerals and callback data *)

Lemma chars_append a b : chars (a +:+ b) = chars a ++ chars b.
Proof.
  unfold chars. induction a as [|c a IH]; simpl; [done|]. by f_equal.
Qed.

Lemma digits_value_cons c ds :
  digits_value (c :: ds) =
  (digit_value c * 10 ^ Z.of_nat (length ds) + digits_value ds)%Z.
Proof.
  revert c. induction ds as [|d ds IH] using rev_ind; intros c.
  - unfold digits_value. simpl. lia.
  - rewrite app_comm_cons, !digits_value_app, IH, length_app.
    cbn [length]. rewrite Nat2Z.inj_add, Z.pow_add_r by lia.
    change (Z.of_nat 1) with 1%Z. rewrite Z.pow_1_r. lia.
Qed.

Lemma pretty_N_char_digit x :
  (x < 10)%N ->
  is_digit (pretty_N_char x) = true /\ digit_value (pretty_N_char x) = Z.of_N x.
Proof.
  intros Hx.
  assert (x = 0 \/ x = 1 \/ x = 2 \/ x = 3 \/ x = 4 \/ x = 5 \/ x = 6 \/
          x = 7 \/ x = 8 \/ x = 9)%N as Hcases by lia.
  repeat destruct Hcases as [->|Hcases]; try subst x; by vm_compute.
Qed.

(** The digits [pretty] writes in front of [s], and their value. *)
Lemma pretty_N_go_digits x s :
  forallb is_digit (chars s) = true ->
  forallb is_digit (chars (pretty_N_go x s)) = true /\
  digits_value (chars (pretty_N_go x s)) =
    (Z.of_N x * 10 ^ Z.of_nat (String.length s) + digits_value (chars s))%Z.
Proof.
  revert s. induction (N.lt_wf_0 x) as [x _ IH]. intros s Hs.
  destruct (decide (x = 0)%N) as [->|Hx].
  - rewrite pretty_N_go_0. split; [done|]. lia.
  - rewrite pretty_N_go_step by lia.
    destruct (pretty_N_char_digit (x `mod` 10)%N) as [Hd Hv].
    { apply N.mod_lt. done. }
    destruct (IH (x `div` 10)%N) with (s := String (pretty_N_char (x `mod` 10)) s)
      as [Hall Hval].
    + apply N.div_lt; lia.
    + cbn [chars list_ascii_of_string forallb]. by rewrite Hd.
    + split; [done|]. rewrite Hval.
      cbn [chars list_ascii_of_string String.length].
      fold (chars s). rewrite digits_value_cons, Hv.
      assert (Hlen : length (chars s) = String.length s).
      { clear. induction s; [done|]. cbn. by f_equal. }
      rewrite Hlen, Nat2Z.inj_succ, Z.pow_succ_r by lia.
      rewrite (N.div_mod x 10) at 3 by done.
      rewrite N2Z.inj_add, N2Z.inj_mul. change (Z.of_N 10) with 10%Z. lia.
Qed.

Lemma pretty_nonneg_digits z :
  (0 <= z)%Z ->
  chars (pretty z) <> [] /\
  forallb is_digit (chars (pretty z)) = true /\
  digits_value (chars (pretty z)) = z.
Proof.
  intros Hz. destruct z as [|p|p]; [done| |lia].
  unfold pretty, pretty_Z, pretty, pretty_positive, pretty, pretty_N.
  destruct (decide (N.pos p = 0)%N) as [|_]; [done|].
  destruct (pretty_N_go_digits (N.pos p) "" eq_refl) as [Hall Hval].
  split; [|split; [done|]].
  - intros Hnil. rewrite Hnil in Hval. cbn in Hval. lia.
  - rewrite Hval. cbn. lia.
Qed.

(** [int(str(z)) == z] for [0 <= z]. *)
Lemma int_of_str z s :
  (0 <= z)%Z -> str_of_int z = Return s -> int_of_string s = Return z.
Proof.
  intros Hz. unfold str_of_int, decimal_digits.
  rewrite Z.abs_eq by done.
  destruct (Nat.ltb_spec int_max_str_digits (String.length (pretty z))) as [|Hlen];
    [done|].
  intros [= <-].
  destruct (pretty_nonneg_digits z Hz) as (Hne & Hall & Hval).
  rewrite <- (text_of_chars (pretty z)), (int_of_digits _ Hne Hall), Hval.
  assert (length (chars (pretty z)) = String.length (pretty z)) as ->.
  { generalize (pretty z). clear. intros s. induction s; [done|]. cbn. by f_equal. }
  by destruct (Nat.ltb_spec int_max_str_digits (String.length (pretty z))); [lia|].
Qed.

Lemma str_of_int_inj a b s :
  str_of_int a = Return s -> str_of_int b = Return s -> a = b.
Proof.
  unfold str_of_int.
  destruct (_ <? _)%nat; [done|]. destruct (_ <? _)%nat; [done|].
  intros [= <-] [= Heq]. symmetry. by apply (inj pretty).
Qed.

Lemma split_on_absent c s :
  forallb (fun a => negb (Ascii.eqb a c)) s = true -> split_on c s = [s].
Proof.
  induction s as [|a s IH]; [done|]. cbn [forallb split_on].
  intros [Ha Hs]%andb_true_iff. rewrite IH by done.
  by destruct (Ascii.eqb a c).
Qed.

Lemma digits_no_underscore s :
  forallb is_digit s = true -> forallb (fun a => negb (Ascii.eqb a "_")) s = true.
Proof.
  apply forallb_impl. intros a Ha.
  destruct (digit_dot_char a (digit_is_digit_dot a Ha)) as (_ & _ & _ & -> & _). done.
Qed.

(** The item a callback carries after its prefix. *)
Lemma split_second_digits prefix s :
  forallb (fun a => negb (Ascii.eqb a "_")) (chars prefix) = true ->
  forallb is_digit (chars s) = true ->
  split_second (prefix +:+ "_" +:+ s) = Return s.
Proof.
  intros Hp Hs. unfold split_second. rewrite !chars_append.
  assert (Hsplit : forall p, forallb (fun a => negb (Ascii.eqb a "_")) p = true ->
            split_on "_" (p ++ chars "_" ++ chars s) = [p; chars s]).
  { induction p as [|a p IH]; cbn [forallb app split_on].
    - intros _. change (chars "_") with ["_"%char]. cbn [app split_on Ascii.eqb Bool.eqb].
      by rewrite (split_on_absent _ _ (digits_no_underscore _ Hs)).
    - intros [Ha Hp']%andb_true_iff. rewrite (IH Hp').
      by destruct (Ascii.eqb a "_"). }
  rewrite (Hsplit _ Hp). by rewrite text_of_chars.
Qed.

(** ** The configuration manager *)

Lemma get_user_config_key uid m o :
  get_user_config uid m = Return o <->
  exists key, str_of_int uid = Return key /\ o = cfg_users (mgr_config m) !! key.
Proof.
  unfold get_user_config. destruct (str_of_int uid) as [key|e]; simpl.
  - split; [intros [= <-]; eauto|]. by intros (key' & [= <-] & ->).
  - split; [done|]. by intros (key' & ? & _).
Qed.

Lemma get_user_config_other uid uid' key m users' file' :
  str_of_int uid = Return key -> uid' <> uid ->
  (forall k, k <> key -> users' !! k = cfg_users (mgr_config m) !! k) ->
  get_user_config uid' (mkManager (set_users (mgr_config m) users') file')
  = get_user_config uid' m.
Proof.
  intros Hkey Hne Husers. unfold get_user_config.
  destruct (str_of_int uid') as [key'|] eqn:Hkey'; [|done]. simpl.
  rewrite Husers; [done|]. intros ->. apply Hne. by eapply str_of_int_inj.
Qed.

Lemma dict_truthy_lookup (d : gmap string json) k v :
  d !! k = Some v -> dict_truthy d = true.
Proof.
  intros Hk. unfold dict_truthy.
  destruct (Nat.eqb_spec (size d) 0) as [Hs|]; [|done].
  apply map_size_empty_iff in Hs. subst d. by rewrite lookup_empty in Hk.
Qed.

(** X11.  [add_user] then [get_user_config]: the user has the credentials
    given, the default leverage and risk of the configuration and auto
    trading off, whatever settings the user had before; the settings of
    every other user are as they were; and the file has been written with
    the new configuration. *)
Theorem add_user_then_get uid api_key api_secret m m' :
  add_user uid api_key api_secret m = Return m' ->
  (exists cfg,
      get_user_config uid m' = Return (Some cfg) /\
      cfg !! "api_key" = Some (JStr api_key) /\
      cfg !! "api_secret" = Some (JStr api_secret) /\
      cfg !! "leverage" = Some (cfg_default_leverage (mgr_config m)) /\
      cfg !! "risk" = Some (cfg_default_risk (mgr_config m)) /\
      cfg !! "auto_trade" = Some (JBool false)) /\
  (forall uid', uid' <> uid -> get_user_config uid' m' = get_user_config uid' m) /\
  mgr_file m' = Some (mgr_config m').
Proof.
  unfold add_user. destruct (str_of_int uid) as [key|] eqn:Hkey; [|done].
  simpl. intros [= <-]. split; [|split].
  - eexists. split.
    + unfold get_user_config. rewrite Hkey. simpl. by rewrite lookup_insert_eq.
    + repeat split;
        repeat (rewrite lookup_insert_ne by done); by rewrite lookup_insert_eq.
  - intros uid' Hne. unfold save_config. cbn [mgr_config mgr_file].
    eapply get_user_config_other; [done..|].
    intros k Hk. by rewrite lookup_insert_ne.
  - done.
Qed.

Lemma add_user_then_get_witness :
  exists cfg,
    get_user_config 42 sample_manager = Return (Some cfg) /\
    cfg !! "leverage" = Some (JInt 10) /\
    cfg !! "auto_trade" = Some (JBool false).
Proof.
  destruct (add_user_then_get 42 "key" "secret" (mkManager default_config None)
              sample_manager) as [(cfg & Hget & _ & _ & Hlev & _ & Hauto) _].
  - vm_compute. reflexivity.
  - exists cfg. by split.
Defined.

(** X12.  [update_user_setting]: for a user without settings it returns
    False and changes nothing, in memory or in the file; for a user with
    settings it returns True, the setting then has the new value, the
    user's other settings and every other user are untouched, and the file
    has been written. *)
Theorem update_user_setting_effect uid key value m o :
  get_user_config uid m = Return o ->
  (no_config o = true ->
   update_user_setting uid key value m = Return (false, m)) /\
  (forall cfg,
      o = Some cfg -> dict_truthy cfg = true ->
      exists m',
        update_user_setting uid key value m = Return (true, m') /\
        get_user_config uid m' = Return (Some (<[key := value]> cfg)) /\
        (forall uid', uid' <> uid ->
                      get_user_config uid' m' = get_user_config uid' m) /\
        mgr_file m' = Some (mgr_config m')).
Proof.
  intros (k & Hk & ->)%get_user_config_key. unfold update_user_setting.
  rewrite Hk. cbn [obind]. split.
  - unfold no_config. destruct (cfg_users (mgr_config m) !! k) as [cfg|]; [|done].
    by destruct (dict_truthy cfg).
  - intros cfg -> ->. eexists. split; [reflexivity|]. split; [|split; [|done]].
    + unfold get_user_config. rewrite Hk. simpl. by rewrite lookup_insert_eq.
    + intros uid' Hne. unfold save_config. cbn [mgr_config mgr_file].
      eapply get_user_config_other; [done..|].
      intros k' Hk'. by rewrite lookup_insert_ne.
Qed.

Lemma update_user_setting_effect_witness :
  update_user_setting 7 "leverage" (JInt 20) sample_manager
  = Return (false, sample_manager).
Proof.
  apply (update_user_setting_effect 7 "leverage" (JInt 20) sample_manager None);
    reflexivity.
Defined.

(** ** The chat handlers *)

Lemma update_setting_registered uid key k v st cfg :
  str_of_int uid = Return key ->
  cfg_users (mgr_config (bot_manager st)) !! key = Some cfg ->
  dict_truthy cfg = true ->
  update_setting uid k v st
  = (Return true,
     mkBot (save_config
              (mkManager (set_users (mgr_config (bot_manager st))
                            (<[key := <[k := v]> cfg]>
                               (cfg_users (mgr_config (bot_manager st)))))
                         (mgr_file (bot_manager st))))
           (bot_user_data st) (bot_events st)).
Proof.
  intros Hkey Hcfg Ht. unfold update_setting, update_user_setting.
  rewrite Hkey. cbn [obind]. by rewrite Hcfg, Ht.
Qed.

Lemma update_setting_unregistered uid k v st o :
  get_user_config uid (bot_manager st) = Return o -> no_config o = true ->
  update_setting uid k v st = (Return false, st).
Proof.
  intros (key & Hkey & ->)%get_user_config_key Hno.
  unfold update_setting, update_user_setting. rewrite Hkey. cbn [obind].
  unfold no_config in Hno. destruct st as [m ud ev]. cbn [bot_manager] in *.
  destruct (cfg_users (mgr_config m) !! key) as [cfg|]; [|done].
  by destruct (dict_truthy cfg).
Qed.

Lemma no_config_some cfg : dict_truthy cfg = true -> no_config (Some cfg) = false.
Proof. unfold no_config. by intros ->. Qed.

Lemma toggle_auto_trade_registered uid key st cfg a :
  str_of_int uid = Return key ->
  cfg_users (mgr_config (bot_manager st)) !! key = Some cfg ->
  cfg !! "auto_trade" = Some a ->
  toggle_auto_trade uid st
  = (Return tt,
     mkBot (save_config
              (mkManager (set_users (mgr_config (bot_manager st))
                            (<[key := <["auto_trade" := JBool (negb (truthy a))]> cfg]>
                               (cfg_users (mgr_config (bot_manager st)))))
                         (mgr_file (bot_manager st))))
           (bot_user_data st)
           (bot_events st ++ [Replied (MsgAutoTrading (negb (truthy a))) []])).
Proof.
  intros Hkey Hcfg Ha. pose proof (dict_truthy_lookup _ _ _ Ha) as Ht.
  unfold toggle_auto_trade, bindB, user_config_of, get_user_config.
  rewrite Hkey. cbn [obind]. rewrite Hcfg, (no_config_some _ Ht).
  cbv zeta. unfold liftB, setting, default, id. rewrite Ha.
  by rewrite (update_setting_registered _ _ _ _ _ _ Hkey Hcfg Ht).
Qed.

(** X13.  Switching auto trading twice, for a user that has the setting:
    the two replies announce the opposite of the setting and then its truth
    value, the setting ends as that truth value (so a Boolean setting is
    restored), and the user's other settings are as before. *)
Theorem toggle_auto_trade_twice uid st cfg a :
  get_user_config uid (bot_manager st) = Return (Some cfg) ->
  cfg !! "auto_trade" = Some a ->
  let st2 := snd (toggle_auto_trade uid (snd (toggle_auto_trade uid st))) in
  get_user_config uid (bot_manager st2)
  = Return (Some (<["auto_trade" := JBool (truthy a)]> cfg)) /\
  (forall b, a = JBool b ->
             get_user_config uid (bot_manager st2) = Return (Some cfg)) /\
  bot_events st2
  = bot_events st ++ [Replied (MsgAutoTrading (negb (truthy a))) [];
                      Replied (MsgAutoTrading (truthy a)) []] /\
  bot_user_data st2 = bot_user_data st.
Proof.
  intros (key & Hkey & Hcfg)%get_user_config_key Ha. symmetry in Hcfg.
  rewrite (toggle_auto_trade_registered _ _ _ _ _ Hkey Hcfg Ha). cbn [snd].
  erewrite (toggle_auto_trade_registered _ key);
    [|done|cbn; apply lookup_insert_eq|apply lookup_insert_eq].
  cbn [snd truthy bot_manager bot_events bot_user_data].
  rewrite negb_involutive.
  assert (Hget : forall cfg' users file c,
             get_user_config uid
               (save_config (mkManager (set_users c (<[key := cfg']> users)) file))
             = Return (Some cfg')).
  { intros. unfold get_user_config. rewrite Hkey. cbn.
    by rewrite lookup_insert_eq. }
  rewrite !insert_insert_eq.
  split; [apply Hget|]. split; [|split; [|done]].
  - intros b ->. cbn [truthy]. rewrite (insert_id cfg "auto_trade" (JBool b) Ha).
    apply Hget.
  - by rewrite <- app_assoc.
Qed.

Lemma toggle_auto_trade_twice_witness :
  get_user_config 42
    (bot_manager (snd (toggle_auto_trade 42 (snd (toggle_auto_trade 42 sample_bot)))))
  = get_user_config 42 (bot_manager sample_bot).
Proof.
  destruct (toggle_auto_trade_twice 42 sample_bot
              (default ∅ (cfg_users (mgr_config (bot_manager sample_bot)) !! "42"))
              (JBool true)) as (_ & H & _).
  - vm_compute. reflexivity.
  - vm_compute. reflexivity.
  - rewrite (H true eq_refl). vm_compute. reflexivity.
Defined.

(** ** Signals waiting for confirmation *)

Lemma split_second_execute n :
  forallb is_digit (chars n) = true ->
  split_second ("execute_" +:+ n) = Return n.
Proof.
  intros Hn. change ("execute_" +:+ n) with ("execute" +:+ "_" +:+ n).
  by apply split_second_digits.
Qed.

Lemma find_signal_execute k n ud :
  str_of_int (Z.of_nat k) = Return n ->
  find_signal ("execute_" +:+ n) ud
  = Return (Z.of_nat k, default ∅ (ud !! "signals") !! Z.of_nat k).
Proof.
  intros Hn. unfold find_signal.
  assert (Hd : forallb is_digit (chars n) = true).
  { unfold str_of_int in Hn.
    destruct (int_max_str_digits <? decimal_digits (Z.of_nat k))%nat; [done|].
    injection Hn as <-. apply pretty_nonneg_digits. lia. }
  rewrite (split_second_execute _ Hd). cbn [obind].
  by rewrite (int_of_str _ _ (Nat2Z.is_nonneg k) Hn).
Qed.

Lemma store_signal_first sg ud n :
  ud !! "signals" = None ->
  str_of_int (Z.of_nat (size ud)) = Return n ->
  store_signal sg ud
  = Return ("execute_" +:+ n,
            <["signals" := {[Z.of_nat (S (size ud)) := sg]}]> ud).
Proof.
  intros Hno Hn. unfold store_signal. rewrite Hn, Hno. cbn [obind].
  rewrite lookup_insert_eq. cbn [default from_option id].
  rewrite insert_insert_eq, (map_size_insert_None _ _ _ Hno).
  by rewrite insert_empty.
Qed.

Lemma store_signal_next sg ud n signals :
  ud !! "signals" = Some signals ->
  str_of_int (Z.of_nat (size ud)) = Return n ->
  store_signal sg ud
  = Return ("execute_" +:+ n,
            <["signals" := <[Z.of_nat (size ud) := sg]> signals]> ud).
Proof.
  intros Hs Hn. unfold store_signal. rewrite Hn, Hs. cbn [obind].
  by rewrite Hs.
Qed.

Lemma handle_message_signal uid text st cfg a lev risk sg stored :
  get_user_config uid (bot_manager st) = Return (Some cfg) ->
  cfg !! "auto_trade" = Some a -> truthy a = true ->
  cfg !! "leverage" = Some lev -> cfg !! "risk" = Some risk ->
  parse_signal text = Return (Some sg) ->
  store_signal sg (bot_user_data st) = Return stored ->
  handle_message uid text st
  = (Return tt,
     mkBot (bot_manager st) (snd stored)
           (bot_events st ++ [Replied (MsgSignalDetected sg lev risk)
                                      [fst stored; "cancel"]])).
Proof.
  intros Hget Ha Hon Hlev Hrisk Hparse Hstore.
  pose proof (dict_truthy_lookup _ _ _ Ha) as Ht.
  unfold handle_message, bindB, user_config_of. rewrite Hget.
  rewrite (no_config_some _ Ht). cbv zeta.
  unfold liftB, setting, default, id. rewrite Ha, Hon. cbn [negb].
  rewrite Hparse, Hlev, Hrisk. unfold get_user_data. by rewrite Hstore.
Qed.

(** X14.  The first signal of a chat.  When the user data has no
    ['signals'] yet, the Execute button of the confirmation carries the
    number of keys the user data had before ['signals'] was created, while
    the signal is stored under the number of keys after: pressing the
    button finds no signal, the trade is not executed, and the message
    becomes "Signal not found". *)
Theorem first_signal_not_found
    (execute_trade : gmap string json -> TradingSignal ->
                     outcome message * TradingSignal)
    uid text st cfg a lev risk sg n :
  get_user_config uid (bot_manager st) = Return (Some cfg) ->
  cfg !! "auto_trade" = Some a -> truthy a = true ->
  cfg !! "leverage" = Some lev -> cfg !! "risk" = Some risk ->
  parse_signal text = Return (Some sg) ->
  bot_user_data st !! "signals" = None ->
  str_of_int (Z.of_nat (size (bot_user_data st))) = Return n ->
  let st1 := snd (handle_message uid text st) in
  bot_events st1
  = bot_events st ++ [Replied (MsgSignalDetected sg lev risk)
                              ["execute_" +:+ n; "cancel"]] /\
  bot_user_data st1 !! "signals"
  = Some {[Z.of_nat (S (size (bot_user_data st))) := sg]} /\
  handle_callback execute_trade uid ("execute_" +:+ n) st1
  = (Return tt,
     mkBot (bot_manager st1) (bot_user_data st1)
           (bot_events st1 ++ [Answered; Edited MsgSignalNotFound []])).
Proof.
  intros Hget Ha Hon Hlev Hrisk Hparse Hno Hn.
  rewrite (handle_message_signal _ _ _ _ _ _ _ _ _ Hget Ha Hon Hlev Hrisk Hparse
             (store_signal_first _ _ _ Hno Hn)).
  cbn [snd fst bot_events bot_user_data bot_manager].
  split; [done|]. split; [apply lookup_insert_eq|].
  unfold handle_callback, bindB, emit, user_config_of.
  cbn [bot_events bot_user_data bot_manager]. rewrite Hget.
  replace (startswith "execute_" ("execute_" +:+ n)) with true
    by (vm_compute; reflexivity).
  unfold get_user_data, liftB. cbn [bot_events bot_user_data bot_manager].
  rewrite (find_signal_execute _ _ _ Hn). cbn [snd].
  rewrite lookup_insert_eq. cbn [default from_option id].
  rewrite lookup_singleton_ne by lia.
  cbn [bot_events bot_user_data bot_manager]. by rewrite <- app_assoc.
Qed.

Lemma first_signal_not_found_witness :
  let st1 := snd (handle_message 42 "LONG BTC/USDT TP 52000 SL 48000" sample_bot) in
  snd (handle_callback sample_execute 42 "execute_0" st1)
  = mkBot (bot_manager st1) (bot_user_data st1)
          (bot_events st1 ++ [Answered; Edited MsgSignalNotFound []]).
Proof.
  intros st1.
  pose proof (first_signal_not_found sample_execute 42
              "LONG BTC/USDT TP 52000 SL 48000" sample_bot
              (default ∅ (cfg_users (mgr_config (bot_manager sample_bot)) !! "42"))
              (JBool true) (JInt 10) (JFloat (float_lit "5.0"))
              (default (new_signal "" "" "")
                 (match parse_signal "LONG BTC/USDT TP 52000 SL 48000" with
                  | Return o => o
                  | Raise _ => None
                  end))
              "0") as H.
  repeat match type of H with
         | ?P -> _ =>
             let HP := fresh in
             assert (HP : P) by (vm_compute; reflexivity);
             specialize (H HP); clear HP
         end.
  cbv zeta in H. destruct H as (_ & _ & Hcb). fold st1 in Hcb.
  change ("execute_" +:+ "0") with "execute_0" in Hcb. by rewrite Hcb.
Defined.

(** X15.  Later signals of a chat.  Once the user data has ['signals'],
    each detected signal is stored under the same number, the one on its
    Execute button: the button finds the signal as long as no other signal
    is detected, and afterwards the buttons of both confirmations find the
    later signal. *)
Theorem later_signal_replaces_earlier sg1 sg2 ud signals d1 ud1 d2 ud2 :
  ud !! "signals" = Some signals ->
  store_signal sg1 ud = Return (d1, ud1) ->
  store_signal sg2 ud1 = Return (d2, ud2) ->
  d2 = d1 /\
  find_signal d1 ud1 = Return (Z.of_nat (size ud), Some sg1) /\
  find_signal d1 ud2 = Return (Z.of_nat (size ud), Some sg2).
Proof.
  intros Hs H1 H2.
  destruct (str_of_int (Z.of_nat (size ud))) as [n|] eqn:Hn;
    [|by unfold store_signal in H1; rewrite Hn in H1].
  rewrite (store_signal_next _ _ _ _ Hs Hn) in H1. injection H1 as <- <-.
  assert (Hsize : size (<["signals" := <[Z.of_nat (size ud) := sg1]> signals]> ud)
                  = size ud).
  { by eapply map_size_insert_Some. }
  rewrite (store_signal_next sg2 _ n (<[Z.of_nat (size ud) := sg1]> signals))
    in H2; [|apply lookup_insert_eq|by rewrite Hsize].
  injection H2 as <- <-. split; [done|].
  rewrite !(find_signal_execute _ _ _ Hn), Hsize, !lookup_insert_eq.
  cbn [default from_option id]. by rewrite !lookup_insert_eq.
Qed.

Lemma later_signal_replaces_earlier_witness :
  let sg1 := new_signal "LONG" "BTCUSDT" "MARKET" in
  let sg2 := new_signal "SHORT" "ETHUSDT" "MARKET" in
  let ud : gmap string (gmap Z TradingSignal) := {["signals" := ∅]} in
  exists d ud1 ud2,
    store_signal sg1 ud = Return (d, ud1) /\
    store_signal sg2 ud1 = Return (d, ud2) /\
    find_signal d ud2 = Return (1, Some sg2).
Proof.
  intros sg1 sg2 ud.
  exists "execute_1",
    (<["signals" := <[1 := sg1]> ∅]> ud),
    (<["signals" := <[1 := sg2]> (<[1 := sg1]> ∅)]>
       (<["signals" := <[1 := sg1]> ∅]> ud)).
  assert (H1 : store_signal sg1 ud
               = Return ("execute_1", <["signals" := <[1 := sg1]> ∅]> ud)).
  { vm_compute. reflexivity. }
  assert (H2 : store_signal sg2 (<["signals" := <[1 := sg1]> ∅]> ud)
               = Return ("execute_1",
                         <["signals" := <[1 := sg2]> (<[1 := sg1]> ∅)]>
                           (<["signals" := <[1 := sg1]> ∅]> ud))).
  { vm_compute. reflexivity. }
  split; [exact H1|]. split; [exact H2|].
  apply (later_signal_replaces_earlier sg1 sg2 ud ∅ _ _ _ _ eq_refl H1 H2).
Defined.

(** ** Settings changed from the keyboards *)

Lemma str_of_int_digits z s :
  (0 <= z)%Z -> str_of_int z = Return s -> forallb is_digit (chars s) = true.
Proof.
  intros Hz Hs. unfold str_of_int in Hs.
  destruct (int_max_str_digits <? decimal_digits z)%nat; [done|].
  injection Hs as <-. by apply pretty_nonneg_digits.
Qed.

Lemma float_of_str z s :
  (0 <= z)%Z -> str_of_int z = Return s ->
  float_of_string s = Return (decimal_to_float false z 0).
Proof.
  intros Hz Hs. unfold str_of_int in Hs.
  destruct (int_max_str_digits <? decimal_digits z)%nat; [done|].
  injection Hs as <-.
  destruct (pretty_nonneg_digits z Hz) as (Hne & Hall & Hval).
  rewrite <- (text_of_chars (pretty z)), (float_of_digits _ Hne Hall).
  by rewrite Hval.
Qed.

Lemma update_setting_cases uid k v st o :
  get_user_config uid (bot_manager st) = Return o ->
  exists m',
    update_setting uid k v st
    = (Return (negb (no_config o)), mkBot m' (bot_user_data st) (bot_events st)) /\
    (no_config o = true -> m' = bot_manager st) /\
    (forall cfg, o = Some cfg -> dict_truthy cfg = true ->
                 get_user_config uid m' = Return (Some (<[k := v]> cfg))).
Proof.
  intros Hget. destruct (no_config o) eqn:Hno.
  - exists (bot_manager st). rewrite (update_setting_unregistered _ _ _ _ _ Hget Hno).
    split; [by destruct st|]. split; [done|].
    intros cfg -> Ht. by rewrite (no_config_some _ Ht) in Hno.
  - destruct o as [cfg|]; [|done].
    assert (Ht : dict_truthy cfg = true).
    { unfold no_config in Hno. by destruct (dict_truthy cfg). }
    apply get_user_config_key in Hget as (key & Hkey & Hcfg). symmetry in Hcfg.
    eexists. rewrite (update_setting_registered _ _ _ _ _ _ Hkey Hcfg Ht).
    split; [done|]. split; [done|]. intros cfg' [= <-] _.
    unfold get_user_config. rewrite Hkey. cbn. by rewrite lookup_insert_eq.
Qed.

(** X16.  The callback [leverage_N] stores the leverage [N], an integer,
    for a user with settings, whatever [N] is: neither [max_leverage] nor
    the values of the menu are consulted.  The message confirms the
    leverage also for a user without settings, for whom nothing is stored.
    The user data is not touched. *)
Theorem leverage_callback_stores_any_value
    (execute_trade : gmap string json -> TradingSignal ->
                     outcome message * TradingSignal)
    uid z s st o :
  (0 <= z)%Z -> str_of_int z = Return s ->
  get_user_config uid (bot_manager st) = Return o ->
  exists m',
    handle_callback execute_trade uid ("leverage_" +:+ s) st
    = (Return tt,
       mkBot m' (bot_user_data st)
             (bot_events st ++ [Answered; Edited (MsgLeverageSet z) []])) /\
    (no_config o = true -> m' = bot_manager st) /\
    (forall cfg, o = Some cfg -> dict_truthy cfg = true ->
                 get_user_config uid m' = Return (Some (<["leverage" := JInt z]> cfg))).
Proof.
  intros Hz Hs Hget.
  destruct (update_setting_cases uid "leverage" (JInt z)
              (mkBot (bot_manager st) (bot_user_data st) (bot_events st ++ [Answered]))
              o Hget) as (m' & Hup & Hm').
  exists m'. split; [|exact Hm'].
  unfold handle_callback, bindB, emit, user_config_of.
  cbn [bot_events bot_user_data bot_manager]. rewrite Hget.
  replace (startswith "execute_" ("leverage_" +:+ s)) with false
    by (vm_compute; reflexivity).
  replace (("leverage_" +:+ s =? "cancel")%string) with false
    by (vm_compute; reflexivity).
  replace (("leverage_" +:+ s =? "set_leverage")%string) with false
    by (vm_compute; reflexivity).
  replace (startswith "leverage_" ("leverage_" +:+ s)) with true
    by (vm_compute; reflexivity).
  unfold liftB. change ("leverage_" +:+ s) with ("leverage" +:+ "_" +:+ s).
  rewrite (split_second_digits "leverage" s eq_refl (str_of_int_digits _ _ Hz Hs)).
  rewrite (int_of_str _ _ Hz Hs), Hup.
  cbn [bot_events bot_user_data bot_manager]. by rewrite <- app_assoc.
Qed.

Lemma leverage_callback_stores_any_value_witness :
  exists m',
    snd (handle_callback sample_execute 42 "leverage_1000" sample_bot)
    = mkBot m' ∅ (bot_events sample_bot ++ [Answered; Edited (MsgLeverageSet 1000) []]) /\
    exists cfg, get_user_config 42 m' = Return (Some cfg) /\
                cfg !! "leverage" = Some (JInt 1000).
Proof.
  destruct (leverage_callback_stores_any_value sample_execute 42 1000 "1000"
              sample_bot
              (cfg_users (mgr_config (bot_manager sample_bot)) !! "42"))
    as (m' & Hcb & _ & Hm'); [lia|vm_compute; reflexivity..|].
  exists m'. split.
  - change "leverage_1000" with ("leverage_" +:+ "1000"). by rewrite Hcb.
  - eexists. split; [by apply Hm'; vm_compute|]. apply lookup_insert_eq.
Defined.

(** X17.  The callback [risk_N] stores the risk as a float, the value of
    the numeral [N], for a user with settings, without consulting
    [max_risk]; the message confirms it also for a user without settings,
    for whom nothing is stored. *)
Theorem risk_callback_stores_any_value
    (execute_trade : gmap string json -> TradingSignal ->
                     outcome message * TradingSignal)
    uid z s st o :
  (0 <= z)%Z -> str_of_int z = Return s ->
  get_user_config uid (bot_manager st) = Return o ->
  let risk := decimal_to_float false z 0 in
  exists m',
    handle_callback execute_trade uid ("risk_" +:+ s) st
    = (Return tt,
       mkBot m' (bot_user_data st)
             (bot_events st ++ [Answered; Edited (MsgRiskSet risk) []])) /\
    (no_config o = true -> m' = bot_manager st) /\
    (forall cfg, o = Some cfg -> dict_truthy cfg = true ->
                 get_user_config uid m' = Return (Some (<["risk" := JFloat risk]> cfg))).
Proof.
  intros Hz Hs Hget risk.
  destruct (update_setting_cases uid "risk" (JFloat risk)
              (mkBot (bot_manager st) (bot_user_data st) (bot_events st ++ [Answered]))
              o Hget) as (m' & Hup & Hm').
  exists m'. split; [|exact Hm'].
  unfold handle_callback, bindB, emit, user_config_of.
  cbn [bot_events bot_user_data bot_manager]. rewrite Hget.
  replace (startswith "execute_" ("risk_" +:+ s)) with false
    by (vm_compute; reflexivity).
  replace (("risk_" +:+ s =? "cancel")%string) with false
    by (vm_compute; reflexivity).
  replace (("risk_" +:+ s =? "set_leverage")%string) with false
    by (vm_compute; reflexivity).
  replace (startswith "leverage_" ("risk_" +:+ s)) with false
    by (vm_compute; reflexivity).
  replace (("risk_" +:+ s =? "set_risk")%string) with false
    by (vm_compute; reflexivity).
  replace (startswith "risk_" ("risk_" +:+ s)) with true
    by (vm_compute; reflexivity).
  unfold liftB. change ("risk_" +:+ s) with ("risk" +:+ "_" +:+ s).
  rewrite (split_second_digits "risk" s eq_refl (str_of_int_digits _ _ Hz Hs)).
  rewrite (float_of_str _ _ Hz Hs). fold risk. rewrite Hup.
  cbn [bot_events bot_user_data bot_manager]. by rewrite <- app_assoc.
Qed.

Lemma risk_callback_stores_any_value_witness :
  exists m',
    snd (handle_callback sample_execute 42 "risk_75" sample_bot)
    = mkBot m' ∅ (bot_events sample_bot
                   ++ [Answered; Edited (MsgRiskSet (float_lit "75.0")) []]) /\
    exists cfg, get_user_config 42 m' = Return (Some cfg) /\
                cfg !! "risk" = Some (JFloat (float_lit "75.0")).
Proof.
  destruct (risk_callback_stores_any_value sample_execute 42 75 "75"
              sample_bot
              (cfg_users (mgr_config (bot_manager sample_bot)) !! "42"))
    as (m' & Hcb & _ & Hm'); [lia|vm_compute; reflexivity..|].
  exists m'. split.
  - change "risk_75" with ("risk_" +:+ "75"). by rewrite Hcb.
  - eexists. split; [by apply Hm'; vm_compute|]. apply lookup_insert_eq.
Defined.

(** X18.  The callback data [toggle_auto], of the third button of the
    settings keyboard, and [back_settings], of the Back button of both
    menus, have no branch in [handle_callback]: the query is answered, and
    nothing is sent, edited or changed. *)
Theorem buttons_without_handler
    (execute_trade : gmap string json -> TradingSignal ->
                     outcome message * TradingSignal)
    uid data st o :
  data = "toggle_auto" \/ data = "back_settings" ->
  get_user_config uid (bot_manager st) = Return o ->
  handle_callback execute_trade uid data st
  = (Return tt,
     mkBot (bot_manager st) (bot_user_data st) (bot_events st ++ [Answered])).
Proof.
  intros Hdata Hget. unfold handle_callback, bindB, emit, user_config_of.
  cbn [bot_events bot_user_data bot_manager]. rewrite Hget.
  by destruct Hdata as [-> | ->].
Qed.

Lemma buttons_without_handler_witness :
  handle_callback sample_execute 42 "toggle_auto" sample_bot
  = (Return tt,
     mkBot (bot_manager sample_bot) (bot_user_data sample_bot)
           (bot_events sample_bot ++ [Answered])).
Proof.
  apply (buttons_without_handler sample_execute 42 "toggle_auto" sample_bot
           (cfg_users (mgr_config (bot_manager sample_bot)) !! "42")).
  - left. reflexivity.
  - vm_compute. reflexivity.
Defined.

Lemma append_assoc (a b c : string) : (a +:+ b) +:+ c = a +:+ b +:+ c.
Proof.
  induction a as [|x a IH]; [done|].
  change (String x ((a +:+ b) +:+ c) = String x (a +:+ b +:+ c)).
  by rewrite IH.
Qed.

Lemma menu_items prefix values :
  forall items,
    foldr (fun v acc => let* l := acc in
                        let* s := str_of_int v in
                        Return ((prefix +:+ s) :: l))
          (Return []) values = Return items ->
    Forall2 (fun z b => exists s, str_of_int z = Return s /\ b = prefix +:+ s)
            values items.
Proof.
  induction values as [|v values IH]; cbn [foldr]; intros items.
  - intros [= <-]. constructor.
  - destruct (foldr _ _ values) as [l|]; [|done]. cbn [obind].
    destruct (str_of_int v) as [s|] eqn:Hs; [|done]. cbn [obind].
    intros [= <-]. constructor; [by exists s|by apply IH].
Qed.

(** X19.  The menus and the callbacks that read them agree.  The buttons
    of a menu are one per value offered, then the Back button; the callback
    data of the button of a value [z], split at the underscore and read
    with [int] (leverage) or with [float] (risk), gives [z] back. *)
Theorem menu_round_trip prefix values buttons :
  forallb (fun a => negb (Ascii.eqb a "_")) (chars prefix) = true ->
  Forall (fun z => (0 <= z)%Z) values ->
  menu (prefix +:+ "_") values = Return buttons ->
  exists items,
    buttons = items ++ ["back_settings"] /\
    Forall2 (fun z b =>
               exists s, split_second b = Return s /\
                         int_of_string s = Return z /\
                         float_of_string s = Return (decimal_to_float false z 0))
            values items.
Proof.
  intros Hp Hpos. unfold menu.
  destruct (foldr _ _ values) as [items|] eqn:Hitems; [|done]. cbn [obind].
  intros [= <-]. exists items. split; [done|].
  apply menu_items in Hitems. revert Hpos.
  induction Hitems as [|z b values items (s & Hs & ->) _ IH]; intros Hpos.
  - constructor.
  - apply Forall_cons in Hpos as [Hz Hpos]. constructor; [|by apply IH].
    exists s. split; [|split].
    + rewrite append_assoc.
      by apply split_second_digits, (str_of_int_digits z).
    + by apply int_of_str.
    + by apply float_of_str.
Qed.

Lemma menu_round_trip_witness :
  exists items,
    menu "leverage_" [5; 10; 20; 25; 50]%Z = Return (items ++ ["back_settings"]) /\
    Forall2 (fun z b =>
               exists s, split_second b = Return s /\
                         int_of_string s = Return z /\
                         float_of_string s = Return (decimal_to_float false z 0))
            [5; 10; 20; 25; 50]%Z items.
Proof.
  destruct (menu_round_trip "leverage" [5; 10; 20; 25; 50]%Z
              ["leverage_5"; "leverage_10"; "leverage_20"; "leverage_25";
               "leverage_50"; "back_settings"])
    as (items & Heq & Hall).
  - reflexivity.
  - repeat constructor; lia.
  - vm_compute. reflexivity.
  - exists items. split; [|exact Hall].
    rewrite <- Heq. vm_compute. reflexivity.
Defined.

(** ** Commands that ask the exchange *)

Lemma fetch_balance_returns session :
  fetch_balance session
  = Return (match session [] GetWalletBalance with
            | Return b => b
            | Raise _ => JDict []
            end).
Proof.
  unfold fetch_balance, get_account_balance, try_catch, call_session, ret.
  cbn [st_calls]. by destruct (session [] GetWalletBalance).
Qed.

(** X20.  [/balance] reads the wallet response as [place_order] does.
    With the credentials in the settings, the command sends one reply and
    changes nothing: the balance the balance check of [place_order]
    accepts, when it accepts one; "Could not fetch balance" when the check
    fails for an empty response or one without [result]; and the balance
    found, a zero, when the check fails for a zero balance. *)
Theorem balance_command_agrees_with_order_check
    (connect : json -> json -> venue) uid st cfg api_key api_secret b :
  get_user_config uid (bot_manager st) = Return (Some cfg) ->
  cfg !! "api_key" = Some api_key ->
  cfg !! "api_secret" = Some api_secret ->
  fetch_balance (connect api_key api_secret) = Return b ->
  exists m,
    balance_command connect uid st
    = (Return tt,
       mkBot (bot_manager st) (bot_user_data st) (bot_events st ++ [Replied m []])) /\
    (forall bal, check_balance b = Return bal -> m = MsgBalance bal) /\
    (balance_problem b "Could not fetch account balance" ->
     m = MsgBalanceUnavailable) /\
    (forall f, py_in "result" b = Return true -> usdt_balance_of b = Return f ->
               m = MsgBalance f).
Proof.
  intros Hget Hk Hs Hb. pose proof (dict_truthy_lookup _ _ _ Hk) as Ht.
  unfold balance_command, bindB, user_config_of. rewrite Hget.
  rewrite (no_config_some _ Ht). cbv zeta.
  unfold try_catchB, bindB, liftB, setting, default, id.
  rewrite Hk, Hs, Hb. unfold check_balance.
  destruct (if negb (truthy b) then Return false else py_in "result" b)
    as [[|]|e] eqn:Hfound.
  - assert (Hin : py_in "result" b = Return true).
    { by destruct (truthy b). }
    destruct (usdt_balance_of b) as [f|e] eqn:Hf.
    + eexists. split; [reflexivity|]. cbn [negb obind]. split; [|split].
      * intros bal. destruct (is_zero f); [done|]. by intros [= <-].
      * intros Hp. inversion Hp as [Hempty|Hr|]; [|congruence].
        by rewrite (py_in_truthy _ Hin) in Hempty.
      * by intros f' _ [= <-].
    + eexists. split; [reflexivity|]. cbn [negb obind]. split; [done|]. split.
      * intros Hp. inversion Hp as [Hempty|Hr|]; [|congruence].
        by rewrite (py_in_truthy _ Hin) in Hempty.
      * by intros f' _.
  - eexists. split; [reflexivity|]. cbn [negb obind]. split; [done|].
    split; [done|]. intros f Hin. rewrite (py_in_truthy _ Hin) in Hfound.
    cbn [negb] in Hfound. congruence.
  - eexists. split; [reflexivity|]. cbn [obind]. split; [done|]. split.
    + intros Hp. inversion Hp as [Hempty|Hr|].
      * by rewrite Hempty in Hfound.
      * destruct (truthy b); cbn [negb] in Hfound; congruence.
    + intros f Hin. rewrite (py_in_truthy _ Hin) in Hfound.
      cbn [negb] in Hfound. congruence.
Qed.

Lemma balance_command_agrees_with_order_check_witness :
  balance_command (fun _ _ => sample_session (sample_wallet "1000") "50000")
                  42 sample_bot
  = (Return tt,
     mkBot (bot_manager sample_bot) (bot_user_data sample_bot)
           (bot_events sample_bot ++ [Replied (MsgBalance (float_lit "1000")) []])).
Proof.
  destruct (balance_command_agrees_with_order_check
              (fun _ _ => sample_session (sample_wallet "1000") "50000")
              42 sample_bot
              (default ∅ (cfg_users (mgr_config (bot_manager sample_bot)) !! "42"))
              (JStr "key") (JStr "secret") (sample_wallet "1000"))
    as (m & Hrun & Hok & _); [vm_compute; reflexivity..|].
  rewrite Hrun. by rewrite (Hok (float_lit "1000")) by (vm_compute; reflexivity).
Defined.

Lemma setup_command_saved (connect : json -> json -> venue)
    uid api_key api_secret st b m' :
  fetch_balance (connect (JStr api_key) (JStr api_secret)) = Return b ->
  truthy b = true ->
  add_user uid api_key api_secret (bot_manager st) = Return m' ->
  setup_command connect uid [api_key; api_secret] st
  = (Return tt,
     mkBot m' (bot_user_data st) (bot_events st ++ [Replied MsgCredentialsSaved []])).
Proof.
  intros Hb Ht Hadd. unfold setup_command, try_catchB, bindB, liftB.
  rewrite Hb, Ht. cbn [negb]. unfold add_user_b. by rewrite Hadd.
Qed.

(** X21.  [/setup] saves the credentials whenever the exchange answers
    the balance request with a dictionary that is not empty: the answer is
    not inspected, so the [retCode] of a refusal is accepted as well.  The
    user is then registered as [add_user] does, and the reply says the
    credentials are saved. *)
Theorem setup_accepts_any_answer (connect : json -> json -> venue)
    uid api_key api_secret st item rest key :
  connect (JStr api_key) (JStr api_secret) [] GetWalletBalance
  = Return (JDict (item :: rest)) ->
  str_of_int uid = Return key ->
  exists m',
    add_user uid api_key api_secret (bot_manager st) = Return m' /\
    setup_command connect uid [api_key; api_secret] st
    = (Return tt,
       mkBot m' (bot_user_data st)
             (bot_events st ++ [Replied MsgCredentialsSaved []])).
Proof.
  intros Hans Hkey.
  assert (Hadd : exists m', add_user uid api_key api_secret (bot_manager st)
                            = Return m').
  { unfold add_user. rewrite Hkey. cbn [obind]. by eexists. }
  destruct Hadd as (m' & Hadd). exists m'. split; [done|].
  apply (setup_command_saved _ _ _ _ _ (JDict (item :: rest))); [|done..].
  by rewrite fetch_balance_returns, Hans.
Qed.

Lemma setup_accepts_any_answer_witness :
  exists m',
    setup_command
      (fun _ _ _ _ => Return (JDict [("retCode", JInt 10003);
                                     ("retMsg", JStr "API key is invalid.")]))
      7 ["k"; "s"] sample_bot
    = (Return tt,
       mkBot m' (bot_user_data sample_bot)
             (bot_events sample_bot ++ [Replied MsgCredentialsSaved []])) /\
    exists cfg, get_user_config 7 m' = Return (Some cfg).
Proof.
  destruct (setup_accepts_any_answer
              (fun _ _ _ _ => Return (JDict [("retCode", JInt 10003);
                                             ("retMsg", JStr "API key is invalid.")]))
              7 "k" "s" sample_bot
              ("retCode", JInt 10003) [("retMsg", JStr "API key is invalid.")] "7")
    as (m' & Hadd & Hrun); [reflexivity|vm_compute; reflexivity|].
  exists m'. split; [exact Hrun|].
  injection Hadd as <-. eexists. vm_compute. reflexivity.
Defined.

(** X22.  When the client raises on the balance request of [/setup],
    [get_account_balance] has turned the exception into an empty
    dictionary: the reply is "Invalid API credentials", not the error
    message of the [except] branch, and nothing is saved. *)
Theorem setup_client_error_is_invalid_credentials (connect : json -> json -> venue)
    uid api_key api_secret st e :
  connect (JStr api_key) (JStr api_secret) [] GetWalletBalance = Raise e ->
  setup_command connect uid [api_key; api_secret] st
  = (Return tt,
     mkBot (bot_manager st) (bot_user_data st)
           (bot_events st ++ [Replied MsgInvalidCredentials []])).
Proof.
  intros Hans. unfold setup_command, try_catchB, bindB, liftB.
  by rewrite fetch_balance_returns, Hans.
Qed.

Lemma setup_client_error_is_invalid_credentials_witness :
  setup_command (fun _ _ _ _ => Raise (ClientError "timeout")) 7 ["k"; "s"] sample_bot
  = (Return tt,
     mkBot (bot_manager sample_bot) (bot_user_data sample_bot)
           (bot_events sample_bot ++ [Replied MsgInvalidCredentials []])).
Proof.
  apply (setup_client_error_is_invalid_credentials
           (fun _ _ _ _ => Raise (ClientError "timeout")) 7 "k" "s" sample_bot
           (ClientError "timeout")).
  reflexivity.
Defined.

(** X23.  After a successful [/setup] auto trading is off, also for a user
    who had switched it on before: whatever the text of a message,
    [handle_message] sends nothing and stores nothing. *)
Theorem no_confirmation_after_setup (connect : json -> json -> venue)
    uid api_key api_secret st item rest key text :
  connect (JStr api_key) (JStr api_secret) [] GetWalletBalance
  = Return (JDict (item :: rest)) ->
  str_of_int uid = Return key ->
  let st1 := snd (setup_command connect uid [api_key; api_secret] st) in
  handle_message uid text st1 = (Return tt, st1).
Proof.
  intros Hans Hkey.
  rewrite (setup_command_saved connect uid api_key api_secret st
             (JDict (item :: rest))
             (save_config
                (mkManager
                   (set_users (mgr_config (bot_manager st))
                      (<[key :=
                           <["api_key" := JStr api_key]>
                           (<["api_secret" := JStr api_secret]>
                           (<["leverage" := cfg_default_leverage (mgr_config (bot_manager st))]>
                           (<["risk" := cfg_default_risk (mgr_config (bot_manager st))]>
                           (<["auto_trade" := JBool false]> ∅))))]>
                         (cfg_users (mgr_config (bot_manager st)))))
                   (mgr_file (bot_manager st)))));
    [|by rewrite fetch_balance_returns, Hans|done
     |by unfold add_user; rewrite Hkey].
  cbn [snd]. unfold handle_message, bindB, user_config_of, get_user_config.
  cbn [bot_manager]. rewrite Hkey. cbn [obind].
  unfold save_config, set_users. cbn [mgr_config cfg_users].
  rewrite lookup_insert_eq. rewrite no_config_some.
  2:{ eapply dict_truthy_lookup. apply lookup_insert_eq. }
  cbv zeta. unfold liftB, setting, default, id.
  repeat (rewrite lookup_insert_ne by done). by rewrite lookup_insert_eq.
Qed.

Lemma no_confirmation_after_setup_witness :
  let connect : json -> json -> venue :=
    fun _ _ => sample_session (sample_wallet "1000") "50000" in
  let st1 := snd (setup_command connect 42 ["key"; "secret"] sample_bot) in
  handle_message 42 "LONG BTC/USDT TP 52000 SL 48000" st1 = (Return tt, st1).
Proof.
  intros connect.
  apply (no_confirmation_after_setup connect 42 "key" "secret" sample_bot
           ("retCode", JInt 0)
           [("result", JDict [("list", JList [JDict [("coin",
               JList [JDict [("coin", JStr "BTC"); ("walletBalance", JStr "0.5")];
                      JDict [("coin", JStr "USDT"); ("walletBalance", JStr "1000")]])]])])]
           "42").
  - reflexivity.
  - vm_compute. reflexivity.
Defined.
